(** * nestjs-voter: the voter interceptor and its decorators

    A shallow embedding of
    - [src/interceptors/voter.interceptor.ts] (class [VoterInterceptor]),
    - [src/decorators/pre-auth-voter.decorator.ts] and
      [src/decorators/post-auth-voter.decorator.ts],
    - [src/models/voter.interface.ts], [src/models/voter-context.interface.ts],
      [src/exceptions/voter.exception.ts],
    followed by the properties of the authorization pipeline.

    JavaScript values are a small inductive type with the language's
    truthiness; objects used as maps ([Record<string, any>], a voter
    instance) are [gmap string _]; a function value is its behaviour on
    an argument (return a value or throw); [async]/[await] is sequential
    composition, a rejected promise being a throw.  Effects are a writer
    of observable events combined with exceptions. *)

From stdpp Require Import gmap strings list fin_maps.
From Stdlib Require Import ZArith.

Set Warnings "-register-all".

(** ** JavaScript values *)

Module Js.

Inductive value :=
| VUndefined
| VNull
| VBool (b : bool)
| VNumber (n : Z)
| VString (s : string)
| VObject (props : gmap string value).

(** [ToBoolean]: what [if (x)], [!x], [a && b] and [a || b] test. *)
Definition truthy (v : value) : bool :=
  match v with
  | VUndefined | VNull => false
  | VBool b => b
  | VNumber n => negb (n =? 0)%Z
  | VString s => negb (String.eqb s "")
  | VObject _ => true
  end.

(** What can be thrown.  [VoterException] is the class of
    exceptions/voter.exception.ts (a [ForbiddenException]); [Error] and
    [TypeError] are the built-in classes; [Thrown] is anything user code
    throws. *)
Inductive exn :=
| VoterException (message : string)
| Error (message : string)
| TypeError (message : string)
| Thrown (v : value).

Inductive outcome (A : Type) :=
| Return (a : A)
| Throw (e : exn).
Arguments Return {A} a.
Arguments Throw {A} e.

(** [new VoterException()] without argument: the default message. *)
Definition VoterException_default : exn := VoterException "Access denied".

Definition is_denial (e : exn) : bool :=
  match e with VoterException _ => true | _ => false end.

End Js.
Import Js.

(** ** The data model *)

(** Modelled from the spec: models/operation-type.enum.ts is not among the
    sources; the four string values are those the README gives for
    [VoterContext.operationType] ('query' | 'mutation' | 'subscription' |
    'http'), and the interceptor itself compares the context type with the
    literal ['http']. *)
Module OperationType.
Definition HTTP : string := "http".
Definition QUERY : string := "query".
Definition MUTATION : string := "mutation".
Definition SUBSCRIPTION : string := "subscription".
End OperationType.

(** interface RequestWithUser: every field is optional; an absent
    [params], [query] or [body] is [None], an absent [user] is
    [VUndefined]. *)
Record RequestWithUser := {
  user : value;
  params : option (gmap string value);
  query : option (gmap string value);
  body : option (gmap string value);
}.

(** The route handler function object [context.getHandler()]: its identity
    (the key reflect-metadata attaches to) and its [name]. *)
Record Handler := {
  handler_ref : nat;
  handler_name : string;
}.

(** What [GqlExecutionContext.create(context)] gives: [getContext().req]
    (possibly undefined), [getArgs()], and [getInfo()]'s [fieldName] and
    [operation.operation]. *)
Record GqlExecutionContext := {
  getContext_req : option RequestWithUser;
  getArgs : gmap string value;
  getInfo_fieldName : string;
  getInfo_operation : string;
}.

(** Nest's [ExecutionContext], as far as the interceptor reads it.
    [graphql] is [None] when [require('@nestjs/graphql')] throws. *)
Record ExecutionContext := {
  getType : string;
  getHandler : Handler;
  switchToHttp_getRequest : RequestWithUser;
  graphql : option GqlExecutionContext;
}.

(** interface VoterContext *)
Record VoterContext := {
  vc_data : value;
  vc_args : gmap string value;
  vc_auth : value;
  vc_context : ExecutionContext;
  vc_methodName : string;
  vc_operationType : string;
}.

Definition set_data (c : VoterContext) (d : value) : VoterContext :=
  {| vc_data := d; vc_args := vc_args c; vc_auth := vc_auth c;
     vc_context := vc_context c; vc_methodName := vc_methodName c;
     vc_operationType := vc_operationType c |}.

(** A function value.  The interceptor calls functions with the voter
    context ([staticMethod(context)], [method.call(voter, context)]) or
    with the produced data ([voter.supports(context.data)]). *)
Inductive jsarg :=
| ArgData (d : value)
| ArgContext (c : VoterContext).

Definition jsfunction : Type := jsarg → outcome value.

(** A property of a voter instance: a function or any other value. *)
Inductive property :=
| PFunction (f : jsfunction)
| PValue (v : value).

(** A voter instance: the properties reachable through it (own and
    inherited), which is what [name in voter] and [voter[name]] see.
    A method is closed over its instance ([this]). *)
Definition Voter : Type := gmap string property.

(** type VoterClass = new (...args) => T, with its [name]. *)
Record VoterClass := {
  name : string;
  construct : outcome Voter;
}.

(** interface PreAuthVoterMetadata / PostAuthVoterMetadata: the two
    interfaces have the same three optional fields. *)
Record VoterMetadata := {
  voterClass : option VoterClass;
  methodName : option string;
  staticMethod : option jsfunction;
}.
Abbreviation PreAuthVoterMetadata := VoterMetadata (only parsing).
Abbreviation PostAuthVoterMetadata := VoterMetadata (only parsing).

(** ** Effects: a trace of events and exceptions *)

Inductive event :=
| EvGetRequest
| EvGetMethodArguments
| EvGetMethodContext
| EvStaticMethod (f : jsfunction) (context : VoterContext)
| EvGetVoterInstance (c : VoterClass)
| EvSupports (c : VoterClass) (data : value)
| EvVoterMethod (c : VoterClass) (methodName : string) (context : VoterContext)
| EvHandle.

Module Effect.

Definition M (A : Type) : Type := (list event * outcome A)%type.

Definition ret {A} (a : A) : M A := ([], Return a).

Definition bind {A B} (m : M A) (k : A → M B) : M B :=
  match m with
  | (t, Return a) => let '(t', r) := k a in (t ++ t', r)
  | (t, Throw e) => (t, Throw e)
  end.

Definition tell (e : event) : M unit := ([e], Return ()).
Definition throw {A} (e : exn) : M A := ([], Throw e).
Definition lift {A} (o : outcome A) : M A := ([], o).

Definition trace {A} (m : M A) : list event := m.1.
Definition result {A} (m : M A) : outcome A := m.2.

End Effect.
Import Effect.

#[global] Instance M_ret : MRet M := @Effect.ret.
#[global] Instance M_bind : MBind M := λ A B k m, Effect.bind m k.

(** An rxjs Observable that emits one value and completes, or errors:
    subscribing runs the deferred computation.  [of(data)] is [mret data];
    [source.pipe(mergeMap(f))] runs [f] on the emitted value. *)
Definition Observable : Type := M value.

Definition pipe_mergeMap (source : Observable) (f : value → M value) : Observable :=
  source ≫= f.

(** interface CallHandler: [handle()] returns the handler's observable. *)
Record CallHandler := {
  handle_observable : Observable;
}.

Definition handle (next : CallHandler) : M Observable :=
  tell EvHandle ;; mret (handle_observable next).

(** ** The rule registry: reflect-metadata on handler functions *)

(** Modelled from the spec: constants/voter.constants.ts is not among the
    sources; the two metadata keys are taken to be distinct, one ordered
    list of rule descriptors per (operation, phase). *)
Inductive metadata_key :=
| PRE_AUTH_VOTER_METADATA
| POST_AUTH_VOTER_METADATA.

(** The metadata attached to handler functions under the two keys. *)
Record MetadataStore := {
  pre_auth : gmap nat (list VoterMetadata);
  post_auth : gmap nat (list VoterMetadata);
}.

Definition empty_store : MetadataStore := {| pre_auth := ∅; post_auth := ∅ |}.

(** [Reflect.getMetadata(key, target)]: [None] is [undefined]. *)
Definition Reflect_getMetadata (key : metadata_key) (target : nat)
    (s : MetadataStore) : option (list VoterMetadata) :=
  match key with
  | PRE_AUTH_VOTER_METADATA => pre_auth s !! target
  | POST_AUTH_VOTER_METADATA => post_auth s !! target
  end.

(** [Reflect.defineMetadata(key, value, target)] *)
Definition Reflect_defineMetadata (key : metadata_key) (v : list VoterMetadata)
    (target : nat) (s : MetadataStore) : MetadataStore :=
  match key with
  | PRE_AUTH_VOTER_METADATA =>
      {| pre_auth := <[target := v]> (pre_auth s); post_auth := post_auth s |}
  | POST_AUTH_VOTER_METADATA =>
      {| pre_auth := pre_auth s; post_auth := <[target := v]> (post_auth s) |}
  end.

(** ** The decorators *)

(** The argument [voterClassOrMethod] of [PreAuthVoter]/[PostAuthVoter]: a
    function object, which the decorator takes for a class when it has a
    [prototype] (classes and [function] declarations have one, arrow
    functions do not) and for an inline predicate otherwise. *)
Record Callable := {
  has_prototype : bool;
  as_class : VoterClass;
  as_function : jsfunction;
}.

Definition PreAuthVoter (voterClassOrMethod : Callable)
    (descriptor_value : nat) (s : MetadataStore) : MetadataStore :=
  let existingMetadata :=
    default [] (Reflect_getMetadata PRE_AUTH_VOTER_METADATA descriptor_value s) in
  let metadata : PreAuthVoterMetadata :=
    if has_prototype voterClassOrMethod
    then {| voterClass := Some (as_class voterClassOrMethod);
            methodName := Some "vote";
            staticMethod := None |}
    else {| voterClass := None;
            methodName := None;
            staticMethod := Some (as_function voterClassOrMethod) |} in
  Reflect_defineMetadata PRE_AUTH_VOTER_METADATA (existingMetadata ++ [metadata])
    descriptor_value s.

Definition PreAuthVoterMethod (voterClass : VoterClass) (methodName : string)
    (descriptor_value : nat) (s : MetadataStore) : MetadataStore :=
  let existingMetadata :=
    default [] (Reflect_getMetadata PRE_AUTH_VOTER_METADATA descriptor_value s) in
  let metadata : PreAuthVoterMetadata :=
    {| voterClass := Some voterClass;
       methodName := Some methodName;
       staticMethod := None |} in
  Reflect_defineMetadata PRE_AUTH_VOTER_METADATA (existingMetadata ++ [metadata])
    descriptor_value s.

Definition PostAuthVoter (voterClassOrMethod : Callable)
    (descriptor_value : nat) (s : MetadataStore) : MetadataStore :=
  let existingMetadata :=
    default [] (Reflect_getMetadata POST_AUTH_VOTER_METADATA descriptor_value s) in
  let metadata : PostAuthVoterMetadata :=
    if has_prototype voterClassOrMethod
    then {| voterClass := Some (as_class voterClassOrMethod);
            methodName := Some "vote";
            staticMethod := None |}
    else {| voterClass := None;
            methodName := None;
            staticMethod := Some (as_function voterClassOrMethod) |} in
  Reflect_defineMetadata POST_AUTH_VOTER_METADATA (existingMetadata ++ [metadata])
    descriptor_value s.

Definition PostAuthVoterMethod (voterClass : VoterClass) (methodName : string)
    (descriptor_value : nat) (s : MetadataStore) : MetadataStore :=
  let existingMetadata :=
    default [] (Reflect_getMetadata POST_AUTH_VOTER_METADATA descriptor_value s) in
  let metadata : PostAuthVoterMetadata :=
    {| voterClass := Some voterClass;
       methodName := Some methodName;
       staticMethod := None |} in
  Reflect_defineMetadata POST_AUTH_VOTER_METADATA (existingMetadata ++ [metadata])
    descriptor_value s.

(** The descriptor [PreAuthVoter]/[PostAuthVoter] build from their
    argument, and the one [PreAuthVoterMethod]/[PostAuthVoterMethod] build. *)
Definition class_or_method_metadata (voterClassOrMethod : Callable) : VoterMetadata :=
  if has_prototype voterClassOrMethod
  then {| voterClass := Some (as_class voterClassOrMethod);
          methodName := Some "vote";
          staticMethod := None |}
  else {| voterClass := None;
          methodName := None;
          staticMethod := Some (as_function voterClassOrMethod) |}.

Definition method_metadata (c : VoterClass) (m : string) : VoterMetadata :=
  {| voterClass := Some c; methodName := Some m; staticMethod := None |}.

(** What the four decorators have in common: the list attached to the
    handler under the key is extended at its end. *)
Definition append_metadata (key : metadata_key) (metadata : VoterMetadata)
    (descriptor_value : nat) (s : MetadataStore) : MetadataStore :=
  Reflect_defineMetadata key
    (default [] (Reflect_getMetadata key descriptor_value s) ++ [metadata])
    descriptor_value s.

(** One application of a decorator to a handler. *)
Inductive registration :=
| RegPreAuthVoter (x : Callable) (target : nat)
| RegPreAuthVoterMethod (c : VoterClass) (m : string) (target : nat)
| RegPostAuthVoter (x : Callable) (target : nat)
| RegPostAuthVoterMethod (c : VoterClass) (m : string) (target : nat).

Definition register (s : MetadataStore) (r : registration) : MetadataStore :=
  match r with
  | RegPreAuthVoter x t => PreAuthVoter x t s
  | RegPreAuthVoterMethod c m t => PreAuthVoterMethod c m t s
  | RegPostAuthVoter x t => PostAuthVoter x t s
  | RegPostAuthVoterMethod c m t => PostAuthVoterMethod c m t s
  end.

(** The decorators applied one after the other, from no metadata at all. *)
Definition register_all (rs : list registration) : MetadataStore :=
  foldl register empty_store rs.

Definition reg_key (r : registration) : metadata_key :=
  match r with
  | RegPreAuthVoter _ _ | RegPreAuthVoterMethod _ _ _ => PRE_AUTH_VOTER_METADATA
  | RegPostAuthVoter _ _ | RegPostAuthVoterMethod _ _ _ => POST_AUTH_VOTER_METADATA
  end.

Definition reg_target (r : registration) : nat :=
  match r with
  | RegPreAuthVoter _ t | RegPreAuthVoterMethod _ _ t
  | RegPostAuthVoter _ t | RegPostAuthVoterMethod _ _ t => t
  end.

Definition reg_metadata (r : registration) : VoterMetadata :=
  match r with
  | RegPreAuthVoter x _ | RegPostAuthVoter x _ => class_or_method_metadata x
  | RegPreAuthVoterMethod c m _ | RegPostAuthVoterMethod c m _ => method_metadata c m
  end.

Definition key_eqb (a b : metadata_key) : bool :=
  match a, b with
  | PRE_AUTH_VOTER_METADATA, PRE_AUTH_VOTER_METADATA
  | POST_AUTH_VOTER_METADATA, POST_AUTH_VOTER_METADATA => true
  | _, _ => false
  end.

(** Whether a registration concerns the given phase and handler. *)
Definition concerns (key : metadata_key) (target : nat) (r : registration) : bool :=
  key_eqb (reg_key r) key && Nat.eqb (reg_target r) target.

(** The descriptors a sequence of registrations gives one handler in one
    phase, in the order of the registrations. *)
Definition registered_on (key : metadata_key) (target : nat)
    (rs : list registration) : list VoterMetadata :=
  reg_metadata <$> List.filter (concerns key target) rs.

(** The rules of an operation in a phase: none when nothing is attached. *)
Definition rules_of (key : metadata_key) (target : nat) (s : MetadataStore) :
    list VoterMetadata :=
  default [] (Reflect_getMetadata key target s).

(** ** The interceptor *)

(** class VoterInterceptor: its two injected collaborators.
    [reflector.get(key, handler)] reads the metadata attached to the
    handler; [moduleRef c] is [moduleRef.get(c, {strict: false})], [None]
    when that call throws. *)
Record VoterInterceptor := {
  reflector : MetadataStore;
  moduleRef : VoterClass → option Voter;
}.

Definition reflector_get (this : VoterInterceptor) (key : metadata_key)
    (h : Handler) : option (list VoterMetadata) :=
  Reflect_getMetadata key (handler_ref h) (reflector this).

(** [getGqlExecutionContext()] followed by [.create(context)]. *)
Definition getGqlExecutionContext (context : ExecutionContext) : M GqlExecutionContext :=
  match graphql context with
  | Some gql => mret gql
  | None =>
      throw (Error ("GraphQL context detected but @nestjs/graphql is not installed. "
                    +:+ "Please install it with: npm install @nestjs/graphql"))
  end.

(** [meta.methodName || 'vote'] *)
Definition methodName_or_vote (meta : VoterMetadata) : string :=
  match methodName meta with
  | Some m => if truthy (VString m) then m else "vote"
  | None => "vote"
  end.

Definition getVoterInstance (this : VoterInterceptor) (c : VoterClass) : M Voter :=
  tell (EvGetVoterInstance c) ;;
  match moduleRef this c with
  | Some voter => mret voter
  | None => lift (construct c)
  end.

(** The body of the loop of [executePreAuthVoters]. *)
Definition executePreAuthVoter (this : VoterInterceptor)
    (meta : PreAuthVoterMetadata) (context : VoterContext) : M unit :=
  match staticMethod meta with
  | Some f =>
      hasAccess ← (tell (EvStaticMethod f context) ;; lift (f (ArgContext context)));
      if truthy hasAccess then mret ()
      else throw (VoterException "Pre-authorization access denied")
  | None =>
      match voterClass meta with
      | Some c =>
          voter ← getVoterInstance this c;
          let methodName := methodName_or_vote meta in
          match voter !! methodName with
          | None =>
              throw (Error ("Method " +:+ methodName +:+ " not found in " +:+ name c))
          | Some (PValue _) =>
              throw (TypeError (methodName +:+ " is not a function in " +:+ name c))
          | Some (PFunction method) =>
              hasAccess ← (tell (EvVoterMethod c methodName context) ;;
                           lift (method (ArgContext context)));
              if truthy hasAccess then mret ()
              else throw (VoterException
                     ("Pre-authorization denied by " +:+ name c +:+ "." +:+ methodName))
          end
      | None => mret ()
      end
  end.

Fixpoint executePreAuthVoters (this : VoterInterceptor)
    (metadata : list PreAuthVoterMetadata) (context : VoterContext) : M unit :=
  match metadata with
  | [] => mret ()
  | meta :: rest =>
      executePreAuthVoter this meta context ;;
      executePreAuthVoters this rest context
  end.

(** [voter.supports && !voter.supports(context.data)]: whether the rule is
    skipped.  A truthy [supports] that is not a function cannot be called. *)
Definition supports_rejects (c : VoterClass) (voter : Voter) (data : value) : M bool :=
  match voter !! "supports" with
  | None => mret false
  | Some (PValue v) =>
      if truthy v then throw (TypeError "voter.supports is not a function")
      else mret false
  | Some (PFunction supports) =>
      r ← (tell (EvSupports c data) ;; lift (supports (ArgData data)));
      mret (negb (truthy r))
  end.

(** The body of the loop of [executePostAuthVoters]. *)
Definition executePostAuthVoter (this : VoterInterceptor)
    (meta : PostAuthVoterMetadata) (context : VoterContext) : M unit :=
  match staticMethod meta with
  | Some f =>
      hasAccess ← (tell (EvStaticMethod f context) ;; lift (f (ArgContext context)));
      if truthy hasAccess then mret ()
      else throw (VoterException "Post-authorization access denied")
  | None =>
      match voterClass meta with
      | Some c =>
          voter ← getVoterInstance this c;
          skip ← supports_rejects c voter (vc_data context);
          if skip : bool then mret ()
          else
            let methodName := methodName_or_vote meta in
            match voter !! methodName with
            | None =>
                throw (Error ("Method " +:+ methodName +:+ " not found in " +:+ name c))
            | Some (PValue _) =>
                throw (TypeError (methodName +:+ " is not a function in " +:+ name c))
            | Some (PFunction method) =>
                hasAccess ← (tell (EvVoterMethod c methodName context) ;;
                             lift (method (ArgContext context)));
                if truthy hasAccess then mret ()
                else throw (VoterException
                       ("Post-authorization denied by " +:+ name c +:+ "." +:+ methodName))
            end
      | None => mret ()
      end
  end.

Fixpoint executePostAuthVoters (this : VoterInterceptor)
    (metadata : list PostAuthVoterMetadata) (context : VoterContext) : M unit :=
  match metadata with
  | [] => mret ()
  | meta :: rest =>
      executePostAuthVoter this meta context ;;
      executePostAuthVoters this rest context
  end.

Definition getRequest (context : ExecutionContext) : M (option RequestWithUser) :=
  tell EvGetRequest ;;
  if String.eqb (getType context) OperationType.HTTP
  then mret (Some (switchToHttp_getRequest context))
  else
    gql ← getGqlExecutionContext context;
    mret (getContext_req gql).

(** One spread element of an object literal, [{ ...acc, ...source }]: every
    property of the source is assigned to the object built so far; an
    undefined source contributes nothing. *)
Definition spread (acc : gmap string value) (source : option (gmap string value)) :
    gmap string value :=
  match source with
  | Some o => map_fold (λ k v r, <[k := v]> r) acc o
  | None => acc
  end.

Definition getMethodArguments (context : ExecutionContext) : M (gmap string value) :=
  tell EvGetMethodArguments ;;
  if String.eqb (getType context) "http"
  then
    let request := switchToHttp_getRequest context in
    mret (spread (spread (spread ∅ (params request)) (query request)) (body request))
  else
    gql ← getGqlExecutionContext context;
    mret (getArgs gql).

Definition getMethodContext (context : ExecutionContext) : M (string * string) :=
  tell EvGetMethodContext ;;
  if String.eqb (getType context) OperationType.HTTP
  then mret (handler_name (getHandler context), OperationType.HTTP)
  else
    gql ← getGqlExecutionContext context;
    let operationType := getInfo_operation gql in
    if negb (String.eqb operationType OperationType.QUERY)
       && negb (String.eqb operationType OperationType.MUTATION)
       && negb (String.eqb operationType OperationType.SUBSCRIPTION)
    then throw (Error ("Unknown GraphQL operation type: " +:+ operationType))
    else mret (getInfo_fieldName gql, operationType).

(** Lines 53 to 64 of [intercept]: the three reads of the execution
    context and the voter context built from them ([req.user] of an
    undefined request is a TypeError). *)
Definition createVoterContext (context : ExecutionContext) : M VoterContext :=
  req ← getRequest context;
  args ← getMethodArguments context;
  '(methodName, operationType) ← getMethodContext context;
  auth ← match req with
         | Some r => mret (user r)
         | None => throw (TypeError "Cannot read properties of undefined (reading 'user')")
         end;
  mret {| vc_data := VNull; vc_args := args; vc_auth := auth; vc_context := context;
          vc_methodName := methodName; vc_operationType := operationType |}.

Definition intercept (this : VoterInterceptor) (context : ExecutionContext)
    (next : CallHandler) : M Observable :=
  let preAuthMetadata := reflector_get this PRE_AUTH_VOTER_METADATA (getHandler context) in
  let postAuthMetadata := reflector_get this POST_AUTH_VOTER_METADATA (getHandler context) in
  match preAuthMetadata, postAuthMetadata with
  | None, None => handle next
  | _, _ =>
      voterContext ← createVoterContext context;
      match preAuthMetadata with
      | Some metadata => executePreAuthVoters this metadata voterContext
      | None => mret ()
      end ;;
      match postAuthMetadata with
      | Some metadata =>
          source ← handle next;
          mret (pipe_mergeMap source (λ data,
                  executePostAuthVoters this metadata (set_data voterContext data) ;;
                  mret data))
      | None => handle next
      end
  end.

(** Awaiting [intercept] and subscribing to the observable it returns: what
    the caller of the intercepted operation observes. *)
Definition invoke (this : VoterInterceptor) (context : ExecutionContext)
    (next : CallHandler) : M value :=
  obs ← intercept this context next;
  obs.

(** ** Rules and their decision functions *)

(** [getVoterInstance] without its event: the shared instance, or a
    default-constructed one. *)
Definition resolve (this : VoterInterceptor) (c : VoterClass) : outcome Voter :=
  match moduleRef this c with
  | Some voter => Return voter
  | None => construct c
  end.

(** The one function that decides a rule: the inline predicate, or the
    named method of the resolved voter. *)
Definition decisionFunction (this : VoterInterceptor) (meta : VoterMetadata) :
    option jsfunction :=
  match staticMethod meta with
  | Some f => Some f
  | None =>
      match voterClass meta with
      | Some c =>
          match resolve this c with
          | Return voter =>
              match voter !! methodName_or_vote meta with
              | Some (PFunction f) => Some f
              | _ => None
              end
          | Throw _ => None
          end
      | None => None
      end
  end.

(** The rule's decision function, called with the context, returns [v]. *)
Definition returns (this : VoterInterceptor) (context : VoterContext)
    (meta : VoterMetadata) (v : value) : Prop :=
  ∃ f, decisionFunction this meta = Some f ∧ f (ArgContext context) = Return v.

(** The event of calling the rule's decision function. *)
Definition decision_call (context : VoterContext) (meta : VoterMetadata) : list event :=
  match staticMethod meta with
  | Some f => [EvStaticMethod f context]
  | None =>
      match voterClass meta with
      | Some c => [EvVoterMethod c (methodName_or_vote meta) context]
      | None => []
      end
  end.

Definition is_decision_call (e : event) : bool :=
  match e with
  | EvStaticMethod _ _ | EvVoterMethod _ _ _ => true
  | _ => false
  end.

(** The calls of decision functions in a trace, in the order they happen. *)
Definition decision_calls (t : list event) : list event :=
  List.filter is_decision_call t.

Definition is_handle (e : event) : bool :=
  match e with EvHandle => true | _ => false end.

(** How often [next.handle()] was called. *)
Definition handle_count (t : list event) : nat :=
  length (List.filter is_handle t).

(** The identity a rule has in a denial reason: voter class and method. *)
Definition ruleIdentity (meta : VoterMetadata) : option string :=
  match staticMethod meta with
  | Some _ => None
  | None =>
      match voterClass meta with
      | Some c => Some (name c +:+ "." +:+ methodName_or_vote meta)
      | None => None
      end
  end.

Definition phase_name (key : metadata_key) : string :=
  match key with
  | PRE_AUTH_VOTER_METADATA => "Pre"
  | POST_AUTH_VOTER_METADATA => "Post"
  end.

(** The reason of the denial a rule produces in a phase. *)
Definition denial_reason (key : metadata_key) (meta : VoterMetadata) : string :=
  match ruleIdentity meta with
  | Some id => phase_name key +:+ "-authorization denied by " +:+ id
  | None => phase_name key +:+ "-authorization access denied"
  end.

Definition executeVoters (key : metadata_key) :=
  match key with
  | PRE_AUTH_VOTER_METADATA => executePreAuthVoters
  | POST_AUTH_VOTER_METADATA => executePostAuthVoters
  end.

Definition executeVoter (key : metadata_key) :=
  match key with
  | PRE_AUTH_VOTER_METADATA => executePreAuthVoter
  | POST_AUTH_VOTER_METADATA => executePostAuthVoter
  end.

(** In the post phase a voter rule is consulted only when the voter has no
    (truthy) [supports] or [supports(data)] is truthy. *)
Definition supports_accepts (voter : Voter) (data : value) : Prop :=
  match voter !! "supports" with
  | None => True
  | Some (PValue v) => truthy v = false
  | Some (PFunction supports) => ∃ r, supports (ArgData data) = Return r ∧ truthy r = true
  end.

Definition consulted (this : VoterInterceptor) (key : metadata_key)
    (context : VoterContext) (meta : VoterMetadata) : Prop :=
  match key with
  | PRE_AUTH_VOTER_METADATA => True
  | POST_AUTH_VOTER_METADATA =>
      match staticMethod meta, voterClass meta with
      | None, Some c =>
          match resolve this c with
          | Return voter => supports_accepts voter (vc_data context)
          | Throw _ => True
          end
      | _, _ => True
      end
  end.

(** The rule's decision function is called in the phase and returns [v]:
    in the post phase that asks that [supports] did not reject the data. *)
Definition answers (this : VoterInterceptor) (key : metadata_key)
    (context : VoterContext) (meta : VoterMetadata) (v : value) : Prop :=
  consulted this key context meta ∧ returns this context meta v.

(** The rule's decision function is called and returns a true value. *)
Definition lets_through (this : VoterInterceptor) (key : metadata_key)
    (context : VoterContext) (meta : VoterMetadata) : Prop :=
  ∃ w, answers this key context meta w ∧ truthy w = true.

(** What evaluating a rule whose decision function returns leaves in the
    trace of the pre phase: the resolution of the voter, if any, and the
    call. *)
Definition rule_trace (context : VoterContext) (meta : VoterMetadata) : list event :=
  match staticMethod meta with
  | Some f => [EvStaticMethod f context]
  | None =>
      match voterClass meta with
      | Some c => [EvGetVoterInstance c;
                   EvVoterMethod c (methodName_or_vote meta) context]
      | None => []
      end
  end.

(** ** Sample voters, predicates and requests

    The fixtures of the interceptor's test suite ([TestVoter],
    [CustomVoter], the mock execution context and call handler), used to
    evaluate the model on concrete inputs. *)

Module Sample.

(** [v?.k] *)
Definition get (v : value) (k : string) : value :=
  match v with
  | VObject props => default VUndefined (props !! k)
  | _ => VUndefined
  end.

(** [v === s] for a string literal [s] *)
Definition is_string (v : value) (s : string) : bool :=
  match v with VString s' => String.eqb s' s | _ => false end.

(** A context none of whose fields is set, for a predicate called with
    something else than a voter context. *)
Definition no_request : RequestWithUser :=
  {| user := VUndefined; params := None; query := None; body := None |}.

Definition no_context : VoterContext :=
  {| vc_data := VUndefined; vc_args := ∅; vc_auth := VUndefined;
     vc_context := {| getType := "";
                      getHandler := {| handler_ref := 0; handler_name := "" |};
                      switchToHttp_getRequest := no_request;
                      graphql := None |};
     vc_methodName := ""; vc_operationType := "" |}.

Definition on_context (f : VoterContext → value) : jsfunction :=
  λ a, match a with
       | ArgContext c => Return (f c)
       | ArgData _ => Return (f no_context)
       end.

(** [a === b].  Primitives are compared by value; two objects are equal
    only when they are one and the same object, which an object read from
    the request's user and one read from its arguments are not. *)
Definition strict_equal (a b : value) : bool :=
  match a, b with
  | VUndefined, VUndefined | VNull, VNull => true
  | VBool x, VBool y => Bool.eqb x y
  | VNumber x, VNumber y => (x =? y)%Z
  | VString x, VString y => String.eqb x y
  | _, _ => false
  end.

(** What every object inherits from [Object.prototype], besides
    [constructor]: the functions, as they answer when called on a voter
    without own properties with the voter context for argument, and the
    accessor [__proto__], whose value is the prototype object. *)
Definition Object_prototype : Voter :=
  {[ "toString" := PFunction (λ _, Return (VString "[object Object]"));
     "toLocaleString" := PFunction (λ _, Return (VString "[object Object]"));
     "valueOf" := PFunction (λ _, Return (VObject ∅));
     "hasOwnProperty" := PFunction (λ _, Return (VBool false));
     "isPrototypeOf" := PFunction (λ _, Return (VBool false));
     "propertyIsEnumerable" := PFunction (λ _, Return (VBool false));
     "__lookupGetter__" := PFunction (λ _, Return VUndefined);
     "__lookupSetter__" := PFunction (λ _, Return VUndefined);
     "__defineGetter__" :=
       PFunction (λ _, Throw (TypeError
         "Object.prototype.__defineGetter__: Expecting function"));
     "__defineSetter__" :=
       PFunction (λ _, Throw (TypeError
         "Object.prototype.__defineSetter__: Expecting function"));
     "__proto__" := PValue (VObject ∅) ]}.

(** [constructor] of an instance of a class: the class itself, which
    cannot be called as a function. *)
Definition class_constructor (class_name : string) : property :=
  PFunction (λ _, Throw (TypeError
    ("Class constructor " +:+ class_name +:+ " cannot be invoked without 'new'"))).

(** What an instance inherits from [BaseVoter]. *)
Definition BaseVoter_prototype : Voter :=
  {[ "supports" := PFunction (λ _, Return (VBool true)) ]}.

(** class TestVoter extends BaseVoter: [vote], [canCreate] and [canUpdate]
    of its own, [supports] of [BaseVoter], and the members of
    [Object.prototype]. *)
Definition TestVoter_instance : Voter :=
  {[ "constructor" := class_constructor "TestVoter";
     "vote" := PFunction (on_context (λ c,
        VBool (strict_equal (get (vc_data c) "allowAccess") (VBool true))));
     "canCreate" := PFunction (on_context (λ c,
        VBool (strict_equal (get (vc_auth c) "role") (VString "admin"))));
     "canUpdate" := PFunction (on_context (λ c,
        VBool (strict_equal (get (vc_auth c) "id")
                 (default VUndefined (vc_args c !! "userId"))))) ]}
  ∪ BaseVoter_prototype ∪ Object_prototype.

Definition TestVoter : VoterClass :=
  {| name := "TestVoter"; construct := Return TestVoter_instance |}.

(** class CustomVoter extends BaseVoter: [supports] is always false and
    [vote] throws. *)
Definition CustomVoter_instance : Voter :=
  {[ "constructor" := class_constructor "CustomVoter";
     "supports" := PFunction (λ _, Return (VBool false));
     "vote" := PFunction (λ _, Throw (Error "Should not be called")) ]}
  ∪ BaseVoter_prototype ∪ Object_prototype.

Definition CustomVoter : VoterClass :=
  {| name := "CustomVoter"; construct := Return CustomVoter_instance |}.

Definition alwaysTrue : jsfunction := λ _, Return (VBool true).
Definition alwaysFalse : jsfunction := λ _, Return (VBool false).
Definition isAdmin : jsfunction :=
  on_context (λ c, VBool (is_string (get (vc_auth c) "role") "admin")).
Definition hasId : jsfunction :=
  on_context (λ c, VBool (bool_decide (is_Some (vc_args c !! "id")))).

Definition predicate (f : jsfunction) : VoterMetadata :=
  {| voterClass := None; methodName := None; staticMethod := Some f |}.

Definition the_handler : Handler := {| handler_ref := 7; handler_name := "getUser" |}.

Definition a_user (role : string) : value :=
  VObject {[ "id" := VString "user1"; "role" := VString role ]}.

Definition http_context (u : value) (b : option (gmap string value)) : ExecutionContext :=
  {| getType := "http";
     getHandler := the_handler;
     switchToHttp_getRequest :=
       {| user := u; params := Some ∅; query := Some ∅; body := b |};
     graphql := None |}.

Definition gql_context (operation : string) : ExecutionContext :=
  {| getType := "graphql";
     getHandler := the_handler;
     switchToHttp_getRequest :=
       {| user := VUndefined; params := None; query := None; body := None |};
     graphql := Some {| getContext_req := Some {| user := a_user "user"; params := None;
                                                  query := None; body := None |};
                        getArgs := {[ "id" := VString "42" ]};
                        getInfo_fieldName := "post";
                        getInfo_operation := operation |} |}.

(** [{ handle: () => of(data) }] *)
Definition of_data (data : value) : CallHandler :=
  {| handle_observable := mret data |}.

(** The interceptor over the metadata a sequence of decorators leaves,
    every voter class being default-constructed. *)
Definition interceptor (rs : list registration) : VoterInterceptor :=
  {| reflector := register_all rs; moduleRef := λ _, None |}.

Definition arrow (f : jsfunction) : Callable :=
  {| has_prototype := false; as_class := TestVoter; as_function := f |}.

Definition class (c : VoterClass) : Callable :=
  {| has_prototype := true;
     as_class := c;
     as_function :=
       λ _, Throw (TypeError "Class constructor cannot be invoked without 'new'") |}.

Definition http_voterContext (u : value) : VoterContext :=
  {| vc_data := VNull; vc_args := ∅; vc_auth := u;
     vc_context := http_context u (Some ∅);
     vc_methodName := "getUser"; vc_operationType := "http" |}.

(** The voter context of the post phase for produced data [d]. *)
Definition post_voterContext (u d : value) : VoterContext :=
  set_data (http_voterContext u) d.

End Sample.


(** ** Further notions for the properties of the whole pipeline *)

(** base/base-voter.ts: the [supports] every voter extending [BaseVoter]
    inherits unless it overrides it. *)
Module BaseVoter.
Definition supports : jsfunction := λ _, Return (VBool true).
End BaseVoter.

Definition is_supports_call (e : event) : bool :=
  match e with EvSupports _ _ => true | _ => false end.

Definition is_static_call (e : event) : bool :=
  match e with EvStaticMethod _ _ => true | _ => false end.

Definition is_resolution (e : event) : bool :=
  match e with EvGetVoterInstance _ => true | _ => false end.

(** The events the evaluation of rules can leave. *)
Definition is_rule_event (e : event) : bool :=
  match e with
  | EvStaticMethod _ _ | EvGetVoterInstance _ | EvSupports _ _ | EvVoterMethod _ _ _ => true
  | _ => false
  end.

(** How often an event of a kind occurs in a trace. *)
Definition count (kind : event → bool) (t : list event) : nat :=
  length (List.filter kind t).

(** The handler of the request carries metadata in some phase: the guard
    of line 49 does not apply. *)
Definition decorated (this : VoterInterceptor) (context : ExecutionContext) : Prop :=
  reflector_get this PRE_AUTH_VOTER_METADATA (getHandler context) ≠ None ∨
  reflector_get this POST_AUTH_VOTER_METADATA (getHandler context) ≠ None.

(** The lists the two loops of [intercept] run over: nothing when the
    phase has no metadata. *)
Definition pre_rules (this : VoterInterceptor) (context : ExecutionContext) :
    list VoterMetadata :=
  default [] (reflector_get this PRE_AUTH_VOTER_METADATA (getHandler context)).

Definition post_rules (this : VoterInterceptor) (context : ExecutionContext) :
    list VoterMetadata :=
  default [] (reflector_get this POST_AUTH_VOTER_METADATA (getHandler context)).

(** ** The example application: [UserVoter] and [UserController] *)

(** examples/user.voter.ts.  [canDelete] reads [auth] off the context and
    allows when [auth.user.role === 'admin']; without [auth] or
    [auth.user] it answers false. *)
Module UserVoter.

(** [const { auth } = context] *)
Definition destructure_auth (a : jsarg) : outcome value :=
  match a with
  | ArgContext context => Return (vc_auth context)
  | ArgData VUndefined =>
      Throw (TypeError
        "Cannot destructure property 'auth' of 'context' as it is undefined.")
  | ArgData VNull =>
      Throw (TypeError
        "Cannot destructure property 'auth' of 'context' as it is null.")
  | ArgData d => Return (Sample.get d "auth")
  end.

Definition canDelete : jsfunction :=
  λ a,
    match destructure_auth a with
    | Return auth =>
        if negb (truthy auth) || negb (truthy (Sample.get auth "user"))
        then Return (VBool false)
        else Return (VBool (Sample.is_string
                              (Sample.get (Sample.get auth "user") "role") "admin"))
    | Throw e => Throw e
    end.

End UserVoter.

(** examples/user.controller.ts: the handlers, identified by their place in
    the class, and the voter decorators applied to them.  The decorators of
    one method are applied bottom-up. *)
Module UserController.

Definition getUser : nat := 1.
Definition getUsers : nat := 2.
Definition createUser : nat := 3.
Definition updateUser : nat := 4.
Definition deleteUser : nat := 5.

Definition decorators (UserVoter : VoterClass) : list registration :=
  [ RegPostAuthVoter (Sample.class UserVoter) getUser;
    RegPostAuthVoter (Sample.class UserVoter) createUser;
    RegPreAuthVoterMethod UserVoter "canCreate" createUser;
    RegPostAuthVoter (Sample.class UserVoter) updateUser;
    RegPreAuthVoterMethod UserVoter "canUpdate" updateUser;
    RegPreAuthVoterMethod UserVoter "canDelete" deleteUser ].

(** [async deleteUser(id) { return { success: true }; }] *)
Definition deleteUser_handler : CallHandler :=
  {| handle_observable := mret (VObject {[ "success" := VBool true ]}) |}.

End UserController.

(** ** Laws of the effect *)

Ltac unfold_M :=
  unfold mbind, M_bind, mret, M_ret, Effect.bind, Effect.ret,
    Effect.tell, Effect.throw, Effect.lift, Effect.trace, Effect.result in *.

Lemma bind_ret_l {A B} (a : A) (k : A → M B) : mret a ≫= k = k a.
Proof. unfold_M. by destruct (k a). Qed.

Lemma bind_pair_return {A B} (t : list event) (a : A) (k : A → M B) :
  (t, Return a) ≫= k = ((t ++ trace (k a)), result (k a)).
Proof. unfold_M. by destruct (k a). Qed.

Lemma bind_pair_throw {A B} (t : list event) (e : exn) (k : A → M B) :
  ((t, Throw e) : M A) ≫= k = (t, Throw e).
Proof. done. Qed.

Lemma bind_assoc {A B C} (m : M A) (k : A → M B) (h : B → M C) :
  (m ≫= k) ≫= h = m ≫= (λ a, k a ≫= h).
Proof.
  unfold_M. destruct m as [t [a|e]]; [|done].
  destruct (k a) as [t1 [b|e1]]; [|done].
  destruct (h b) as [t2 r]. by rewrite app_assoc.
Qed.

(** The loops run the rules of a concatenation one list after the other. *)
Lemma executePreAuthVoters_app this l1 l2 context :
  executePreAuthVoters this (l1 ++ l2) context =
  (executePreAuthVoters this l1 context ;; executePreAuthVoters this l2 context).
Proof.
  induction l1 as [|meta l1 IH]; cbn [executePreAuthVoters app].
  - by rewrite bind_ret_l.
  - by rewrite IH, bind_assoc.
Qed.

Lemma executePostAuthVoters_app this l1 l2 context :
  executePostAuthVoters this (l1 ++ l2) context =
  (executePostAuthVoters this l1 context ;; executePostAuthVoters this l2 context).
Proof.
  induction l1 as [|meta l1 IH]; cbn [executePostAuthVoters app].
  - by rewrite bind_ret_l.
  - by rewrite IH, bind_assoc.
Qed.

(** 'should fail if any pre-authorization voter denies': both predicates
    ran, the handler did not. *)
Example two_predicates_second_denies :
  invoke (Sample.interceptor [RegPreAuthVoter (Sample.arrow Sample.alwaysTrue) 7;
                              RegPreAuthVoter (Sample.arrow Sample.alwaysFalse) 7])
         (Sample.http_context (Sample.a_user "user") (Some ∅))
         (Sample.of_data (VString "x"))
  = ([EvGetRequest; EvGetMethodArguments; EvGetMethodContext;
      EvStaticMethod Sample.alwaysTrue (Sample.http_voterContext (Sample.a_user "user"));
      EvStaticMethod Sample.alwaysFalse (Sample.http_voterContext (Sample.a_user "user"))],
     Throw (VoterException "Pre-authorization access denied")).
Proof. vm_compute. reflexivity. Qed.

(** 'should deny pre-authorization when voter returns false' *)
Example voter_class_denies :
  result (invoke (Sample.interceptor [RegPreAuthVoterMethod Sample.TestVoter "canCreate" 7])
            (Sample.http_context (Sample.a_user "user") (Some ∅))
            (Sample.of_data (VString "x")))
  = Throw (VoterException "Pre-authorization denied by TestVoter.canCreate").
Proof. vm_compute. reflexivity. Qed.

(** 'should skip voter when supports returns false' *)
Example custom_voter_skipped :
  result (invoke (Sample.interceptor [RegPostAuthVoter (Sample.class Sample.CustomVoter) 7])
            (Sample.http_context (Sample.a_user "user") (Some ∅))
            (Sample.of_data (VString "test")))
  = Return (VString "test").
Proof. vm_compute. reflexivity. Qed.

(** 'should throw error when method not found in voter' *)
Example method_not_found :
  result (invoke (Sample.interceptor [RegPreAuthVoterMethod Sample.TestVoter "nonExistentMethod" 7])
            (Sample.http_context (Sample.a_user "user") (Some ∅))
            (Sample.of_data (VString "x")))
  = Throw (Error "Method nonExistentMethod not found in TestVoter").
Proof. vm_compute. reflexivity. Qed.

(** ** One rule *)

Section OneRule.
Variable this : VoterInterceptor.
Variable context : VoterContext.

Lemma executePreAuthVoter_returns meta v :
  returns this context meta v →
  executePreAuthVoter this meta context =
  (rule_trace context meta,
   if truthy v then Return ()
   else Throw (VoterException (denial_reason PRE_AUTH_VOTER_METADATA meta))).
Proof.
  intros (f & Hd & Hf). revert Hd.
  unfold decisionFunction, executePreAuthVoter, rule_trace, denial_reason,
    ruleIdentity, getVoterInstance, resolve.
  destruct (staticMethod meta) as [g|].
  - intros [= ->]. unfold_M. rewrite Hf. simpl. by destruct (truthy v).
  - destruct (voterClass meta) as [c|]; [|done].
    unfold_M.
    destruct (moduleRef this c) as [voter|]; simpl.
    + destruct (voter !! methodName_or_vote meta) as [[g|?]|]; [|done..].
      intros [= ->]. rewrite Hf. simpl. by destruct (truthy v).
    + destruct (construct c) as [voter|?]; [|done]; simpl.
      destruct (voter !! methodName_or_vote meta) as [[g|?]|]; [|done..].
      intros [= ->]. rewrite Hf. simpl. by destruct (truthy v).
Qed.

Lemma decision_calls_rule_trace meta :
  decision_calls (rule_trace context meta) = decision_call context meta.
Proof.
  unfold rule_trace, decision_call.
  destruct (staticMethod meta); [done|]. by destruct (voterClass meta).
Qed.

Lemma handle_count_rule_trace meta : handle_count (rule_trace context meta) = 0.
Proof.
  unfold rule_trace.
  destruct (staticMethod meta); [done|]. by destruct (voterClass meta).
Qed.

(** Rules that all return a truthy value are all called, in order. *)
Lemma executePreAuthVoters_all_true rules :
  Forall (λ m, ∃ w, returns this context m w ∧ truthy w = true) rules →
  executePreAuthVoters this rules context =
  (flat_map (rule_trace context) rules, Return ()).
Proof.
  induction 1 as [|m rules (w & Hw & Ht) _ IH]; [done|].
  cbn [executePreAuthVoters flat_map].
  rewrite (executePreAuthVoter_returns _ _ Hw), Ht, bind_pair_return.
  by rewrite IH.
Qed.

(** The rules before the first one that stops the loop pass; the loop
    ends with what that rule throws. *)
Lemma executePreAuthVoters_first_throw l1 meta l2 t e :
  Forall (λ m, ∃ w, returns this context m w ∧ truthy w = true) l1 →
  executePreAuthVoter this meta context = (t, Throw e) →
  executePreAuthVoters this (l1 ++ meta :: l2) context =
  (flat_map (rule_trace context) l1 ++ t, Throw e).
Proof.
  intros Hl1 Hm.
  rewrite executePreAuthVoters_app, (executePreAuthVoters_all_true _ Hl1).
  rewrite bind_pair_return. cbn [executePreAuthVoters].
  by rewrite Hm, bind_pair_throw.
Qed.

End OneRule.

(** ** The trace of context construction *)

Lemma decision_calls_app t1 t2 :
  decision_calls (t1 ++ t2) = decision_calls t1 ++ decision_calls t2.
Proof. apply List.filter_app. Qed.

Lemma handle_count_app t1 t2 :
  handle_count (t1 ++ t2) = handle_count t1 + handle_count t2.
Proof. unfold handle_count. by rewrite List.filter_app, length_app. Qed.

Lemma decision_calls_flat_map context rules :
  decision_calls (flat_map (rule_trace context) rules) =
  flat_map (decision_call context) rules.
Proof.
  induction rules as [|m rules IH]; [done|]. cbn [flat_map].
  by rewrite decision_calls_app, decision_calls_rule_trace, IH.
Qed.

Lemma handle_count_flat_map context rules :
  handle_count (flat_map (rule_trace context) rules) = 0.
Proof.
  induction rules as [|m rules IH]; [done|]. cbn [flat_map].
  by rewrite handle_count_app, handle_count_rule_trace, IH.
Qed.

(** Building the voter context calls no decision function and not the
    handler: it leaves the three reads of the execution context, or a
    prefix of them when one throws. *)
Lemma createVoterContext_trace context :
  ∃ n, trace (createVoterContext context) =
       take n [EvGetRequest; EvGetMethodArguments; EvGetMethodContext].
Proof.
  unfold createVoterContext, getRequest, getMethodArguments, getMethodContext,
    getGqlExecutionContext, OperationType.HTTP.
  destruct (String.eqb (getType context) "http").
  - by exists 3.
  - destruct (graphql context) as [gql|]; [|by exists 1].
    unfold_M. simpl.
    destruct (negb _ && negb _ && negb _); simpl; [by exists 3|].
    destruct (getContext_req gql); by exists 3.
Qed.

Lemma createVoterContext_quiet context :
  decision_calls (trace (createVoterContext context)) = [] ∧
  handle_count (trace (createVoterContext context)) = 0.
Proof.
  destruct (createVoterContext_trace context) as [n ->].
  destruct n as [|[|[|[|n]]]]; split; reflexivity.
Qed.

(** ** [intercept] when the pre phase stops *)

Lemma intercept_pre_throw this context next rules tr0 vctx t e :
  reflector_get this PRE_AUTH_VOTER_METADATA (getHandler context) = Some rules →
  createVoterContext context = (tr0, Return vctx) →
  executePreAuthVoters this rules vctx = (t, Throw e) →
  intercept this context next = (tr0 ++ t, Throw e).
Proof.
  intros Hpre Hctx Hrun. unfold intercept. rewrite Hpre, Hctx, bind_pair_return.
  by rewrite Hrun.
Qed.

(** ** The pre phase stops at the first rule that returns false *)

(** C1 (amended).  For an operation whose pre-phase rules are [rules], on a
    request whose voter context is built, if rule [k] (counted from 0 here)
    returns a false value and every rule before it returns a true one, then
    [intercept] rejects with a [VoterException]; the decision functions
    called are exactly those of rules 0 to [k], in registration order (none
    after [k]); [next.handle()] is never called; and the reason names rule
    [k] as [<voter class>.<method>] when it is a voter rule, and is the
    fixed text ["Pre-authorization access denied"], which names no rule,
    when it is an inline predicate. *)
Theorem pre_first_false_short_circuits this context next rules tr0 vctx k meta v :
  reflector_get this PRE_AUTH_VOTER_METADATA (getHandler context) = Some rules →
  createVoterContext context = (tr0, Return vctx) →
  rules !! k = Some meta →
  (∀ i m, i < k → rules !! i = Some m →
          ∃ w, returns this vctx m w ∧ truthy w = true) →
  returns this vctx meta v →
  truthy v = false →
  ∃ tr reason,
    intercept this context next = (tr, Throw (VoterException reason)) ∧
    decision_calls tr = flat_map (decision_call vctx) (take (S k) rules) ∧
    handle_count tr = 0 ∧
    reason = match staticMethod meta, voterClass meta with
             | None, Some c =>
                 "Pre-authorization denied by " +:+ name c +:+ "."
                   +:+ methodName_or_vote meta
             | _, _ => "Pre-authorization access denied"
             end.
Proof.
  intros Hpre Hctx Hk Hbefore Hret Hfalse.
  assert (Hl1 : Forall (λ m, ∃ w, returns this vctx m w ∧ truthy w = true)
                  (take k rules)).
  { apply Forall_lookup. intros i m Hi.
    apply lookup_take_Some in Hi as [Hi Hlt]. eauto. }
  pose proof (executePreAuthVoter_returns this vctx meta v Hret) as Hm.
  rewrite Hfalse in Hm.
  pose proof (executePreAuthVoters_first_throw this vctx _ _ (drop (S k) rules) _ _ Hl1 Hm)
    as Hrun.
  rewrite (take_drop_middle _ _ _ Hk) in Hrun.
  eexists _, _. split; [exact (intercept_pre_throw _ _ next _ _ _ _ _ Hpre Hctx Hrun)|].
  assert (Hq := createVoterContext_quiet context). rewrite Hctx in Hq.
  destruct Hq as [Hq1 Hq2]. cbn [trace fst] in Hq1, Hq2.
  split; [|split].
  - rewrite !decision_calls_app, Hq1, decision_calls_flat_map,
      decision_calls_rule_trace.
    rewrite (take_S_r _ _ _ Hk), flat_map_app. cbn [flat_map].
    by rewrite app_nil_r.
  - rewrite !handle_count_app, Hq2, handle_count_flat_map, handle_count_rule_trace.
    done.
  - unfold denial_reason, ruleIdentity.
    destruct (staticMethod meta); [done|]. by destruct (voterClass meta).
Qed.

Lemma pre_first_false_short_circuits_witness :
  ∃ tr reason,
    intercept
      (Sample.interceptor [RegPreAuthVoter (Sample.arrow Sample.alwaysTrue) 7;
                           RegPreAuthVoterMethod Sample.TestVoter "canCreate" 7;
                           RegPreAuthVoter (Sample.arrow Sample.alwaysTrue) 7])
      (Sample.http_context (Sample.a_user "user") (Some ∅))
      (Sample.of_data (VString "x"))
    = (tr, Throw (VoterException reason)) ∧
    decision_calls tr =
      [EvStaticMethod Sample.alwaysTrue (Sample.http_voterContext (Sample.a_user "user"));
       EvVoterMethod Sample.TestVoter "canCreate"
         (Sample.http_voterContext (Sample.a_user "user"))] ∧
    handle_count tr = 0 ∧
    reason = "Pre-authorization denied by TestVoter.canCreate".
Proof.
  apply (pre_first_false_short_circuits _ _ _
           [Sample.predicate Sample.alwaysTrue;
            method_metadata Sample.TestVoter "canCreate";
            Sample.predicate Sample.alwaysTrue]
           [EvGetRequest; EvGetMethodArguments; EvGetMethodContext]
           (Sample.http_voterContext (Sample.a_user "user"))
           1 (method_metadata Sample.TestVoter "canCreate") (VBool false)).
  - vm_compute. reflexivity.
  - vm_compute. reflexivity.
  - reflexivity.
  - intros [|i] m Hi Hm; [|lia]. injection Hm as <-.
    exists (VBool true). split; [|reflexivity].
    eexists. split; reflexivity.
  - eexists. split; [vm_compute; reflexivity|]. vm_compute. reflexivity.
  - reflexivity.
Defined.

(** C1, as stated, fails: one operation guarded by two inline predicates,
    two requests.  The first is refused by rule 1, the second passes rule 1
    and is refused by rule 2, and the two denials are the same exception
    with the same reason: nothing in the denial attributes it to a rule. *)
Lemma predicate_denials_name_no_rule :
  let this := Sample.interceptor [RegPreAuthVoter (Sample.arrow Sample.isAdmin) 7;
                                  RegPreAuthVoter (Sample.arrow Sample.hasId) 7] in
  let request1 := Sample.http_context (Sample.a_user "user")
                    (Some {[ "id" := VString "42" ]}) in
  let request2 := Sample.http_context (Sample.a_user "admin") (Some ∅) in
  let next := Sample.of_data (VString "x") in
  (∃ c1, createVoterContext request1 = (trace (createVoterContext request1), Return c1) ∧
         returns this c1 (Sample.predicate Sample.isAdmin) (VBool false)) ∧
  (∃ c2, createVoterContext request2 = (trace (createVoterContext request2), Return c2) ∧
         returns this c2 (Sample.predicate Sample.isAdmin) (VBool true) ∧
         returns this c2 (Sample.predicate Sample.hasId) (VBool false)) ∧
  result (intercept this request1 next)
    = Throw (VoterException "Pre-authorization access denied") ∧
  result (intercept this request2 next)
    = Throw (VoterException "Pre-authorization access denied") ∧
  length (decision_calls (trace (intercept this request1 next))) = 1 ∧
  length (decision_calls (trace (intercept this request2 next))) = 2 ∧
  ∀ rule_of_denial : outcome Observable → nat,
    ¬ (rule_of_denial (result (intercept this request1 next)) = 1 ∧
       rule_of_denial (result (intercept this request2 next)) = 2).
Proof.
  cbv zeta. split; [|split; [|split; [|split; [|split; [|split]]]]];
    [| | | | | |intros f [H1 H2]; vm_compute in H1, H2; congruence].
  - eexists. split; [vm_compute; reflexivity|].
    eexists. split; [reflexivity|]. vm_compute. reflexivity.
  - eexists. split; [vm_compute; reflexivity|]. split.
    + eexists. split; [reflexivity|]. vm_compute. reflexivity.
    + eexists. split; [reflexivity|]. vm_compute. reflexivity.
  - vm_compute. reflexivity.
  - vm_compute. reflexivity.
  - vm_compute. reflexivity.
  - vm_compute. reflexivity.
Qed.

(** ** The reason of a denial, in both phases *)

Section Reasons.
Variable this : VoterInterceptor.
Variable context : VoterContext.

Lemma executePostAuthVoter_returns meta v :
  consulted this POST_AUTH_VOTER_METADATA context meta →
  returns this context meta v →
  result (executePostAuthVoter this meta context) =
  if truthy v then Return ()
  else Throw (VoterException (denial_reason POST_AUTH_VOTER_METADATA meta)).
Proof.
  intros Hc (f & Hd & Hf). revert Hc Hd.
  unfold consulted, decisionFunction, executePostAuthVoter, denial_reason,
    ruleIdentity, getVoterInstance, supports_rejects, supports_accepts.
  destruct (staticMethod meta) as [g|].
  - intros _ [= ->]. unfold_M. rewrite Hf. simpl. by destruct (truthy v).
  - destruct (voterClass meta) as [c|]; [|done].
    assert (Hres : (tell (EvGetVoterInstance c) ;;
                    match moduleRef this c with
                    | Some voter => mret voter
                    | None => lift (construct c)
                    end) = ([EvGetVoterInstance c], resolve this c)).
    { unfold resolve. unfold_M. by destruct (moduleRef this c) as [?|]; [|destruct (construct c)]. }
    rewrite Hres. clear Hres.
    destruct (resolve this c) as [voter|?]; [|done].
    rewrite bind_pair_return.
    destruct (voter !! "supports") as [[s|w]|].
    + intros (r & Hr & Htr).
      destruct (voter !! methodName_or_vote meta) as [[g|?]|]; [|done..].
      intros [= ->]. unfold_M. rewrite Hr, Hf. simpl. rewrite Htr. simpl.
      by destruct (truthy v).
    + intros Hw.
      destruct (voter !! methodName_or_vote meta) as [[g|?]|]; [|done..].
      intros [= ->]. unfold_M. rewrite Hw, Hf. simpl. by destruct (truthy v).
    + intros _.
      destruct (voter !! methodName_or_vote meta) as [[g|?]|]; [|done..].
      intros [= ->]. unfold_M. rewrite Hf. simpl. by destruct (truthy v).
Qed.

Lemma executeVoter_returns key meta v :
  consulted this key context meta →
  returns this context meta v →
  result (executeVoter key this meta context) =
  if truthy v then Return ()
  else Throw (VoterException (denial_reason key meta)).
Proof.
  destruct key; intros Hc Hr.
  - cbn [executeVoter]. by rewrite (executePreAuthVoter_returns _ _ _ _ Hr).
  - by apply executePostAuthVoter_returns.
Qed.

Lemma executeVoters_cons key meta rest :
  executeVoters key this (meta :: rest) context =
  (executeVoter key this meta context ;; executeVoters key this rest context).
Proof. by destruct key. Qed.

(** Rules that let the evaluation go on do not change how it ends. *)
Lemma executeVoters_skip_passing key l1 l2 :
  Forall (λ m, result (executeVoter key this m context) = Return ()) l1 →
  result (executeVoters key this (l1 ++ l2) context) =
  result (executeVoters key this l2 context).
Proof.
  induction 1 as [|m l1 Hm _ IH]; [done|].
  cbn [app]. rewrite executeVoters_cons.
  destruct (executeVoter key this m context) as [t r]. cbn [result snd] in Hm.
  subst r. by rewrite bind_pair_return.
Qed.

Lemma first_denial key l1 meta l2 v :
  Forall (λ m, result (executeVoter key this m context) = Return ()) l1 →
  consulted this key context meta →
  returns this context meta v →
  truthy v = false →
  result (executeVoters key this (l1 ++ meta :: l2) context) =
  Throw (VoterException (denial_reason key meta)).
Proof.
  intros Hl1 Hc Hr Hv.
  rewrite (executeVoters_skip_passing _ _ _ Hl1), executeVoters_cons.
  pose proof (executeVoter_returns key meta v Hc Hr) as Hm. rewrite Hv in Hm.
  destruct (executeVoter key this meta context) as [t r]. cbn [result snd] in Hm.
  by subst r.
Qed.

End Reasons.

(** C2 (amended).  In either phase, when a rule is the first to return a
    false value (the rules before it let the evaluation go on, and in the
    post phase its voter's [supports] did not reject the data), the
    evaluation ends in a [VoterException] whose reason is
    ["<Phase>-authorization denied by <VoterClass>.<method>"] for a voter
    rule, and the fixed ["<Phase>-authorization access denied"], without
    any rule identity, for an inline predicate. *)
Theorem first_denial_reason this key context l1 meta l2 v :
  Forall (λ m, result (executeVoter key this m context) = Return ()) l1 →
  consulted this key context meta →
  returns this context meta v →
  truthy v = false →
  result (executeVoters key this (l1 ++ meta :: l2) context) =
  Throw (VoterException
    match staticMethod meta, voterClass meta with
    | None, Some c =>
        phase_name key +:+ "-authorization denied by " +:+ name c +:+ "."
          +:+ methodName_or_vote meta
    | _, _ => phase_name key +:+ "-authorization access denied"
    end).
Proof.
  intros Hl1 Hc Hr Hv. rewrite (first_denial _ _ _ _ _ _ _ Hl1 Hc Hr Hv).
  unfold denial_reason, ruleIdentity.
  destruct (staticMethod meta); [done|]. by destruct (voterClass meta).
Qed.

Lemma first_denial_reason_witness :
  result (executePostAuthVoters (Sample.interceptor [])
            ([Sample.predicate Sample.alwaysTrue]
               ++ class_or_method_metadata (Sample.class Sample.TestVoter)
               :: [Sample.predicate Sample.alwaysFalse])
            (Sample.post_voterContext (Sample.a_user "user")
               (VObject {[ "allowAccess" := VBool false ]})))
  = Throw (VoterException "Post-authorization denied by TestVoter.vote").
Proof.
  apply (first_denial_reason (Sample.interceptor []) POST_AUTH_VOTER_METADATA
           (Sample.post_voterContext (Sample.a_user "user")
              (VObject {[ "allowAccess" := VBool false ]}))
           [Sample.predicate Sample.alwaysTrue]
           (class_or_method_metadata (Sample.class Sample.TestVoter))
           [Sample.predicate Sample.alwaysFalse] (VBool false)).
  - repeat constructor.
  - exists (VBool true). split; reflexivity.
  - eexists. split; [vm_compute; reflexivity|]. vm_compute. reflexivity.
  - reflexivity.
Defined.

(** C2, as stated, fails for inline predicates: the first rule to return
    false is a predicate, and the reason of the denial is not
    ["Pre-authorization denied by <ruleIdentity>"] (resp. ["Post-..."]) for
    any rule identity whatever. *)
Lemma predicate_denial_reason_has_no_identity :
  let this := Sample.interceptor [RegPreAuthVoter (Sample.arrow Sample.alwaysFalse) 7] in
  let this' := Sample.interceptor [RegPostAuthVoter (Sample.arrow Sample.alwaysFalse) 7] in
  let request := Sample.http_context (Sample.a_user "user") (Some ∅) in
  let next := Sample.of_data (VString "x") in
  (∃ reason, result (invoke this request next) = Throw (VoterException reason) ∧
             ∀ id, reason ≠ "Pre-authorization denied by " +:+ id) ∧
  (∃ reason, result (invoke this' request next) = Throw (VoterException reason) ∧
             ∀ id, reason ≠ "Post-authorization denied by " +:+ id).
Proof.
  cbv zeta. split.
  - exists "Pre-authorization access denied". split; [vm_compute; reflexivity|].
    intros id H. cbn in H. discriminate H.
  - exists "Post-authorization access denied". split; [vm_compute; reflexivity|].
    intros id H. cbn in H. discriminate H.
Qed.

(** ** Rules that are skipped *)

(** A rule whose evaluation returns normally with trace [t] can be taken
    out of the list: the evaluation ends the same way, and its trace loses
    exactly [t]. *)
Lemma executePostAuthVoters_passing_rule this context l1 meta l2 t :
  executePostAuthVoter this meta context = (t, Return ()) →
  executePostAuthVoters this (l1 ++ meta :: l2) context =
    (executePostAuthVoters this l1 context ;;
     ((t, Return ()) : M unit) ;;
     executePostAuthVoters this l2 context) ∧
  result (executePostAuthVoters this (l1 ++ meta :: l2) context) =
    result (executePostAuthVoters this (l1 ++ l2) context) ∧
  (decision_calls t = [] →
   decision_calls (trace (executePostAuthVoters this (l1 ++ meta :: l2) context)) =
   decision_calls (trace (executePostAuthVoters this (l1 ++ l2) context))).
Proof.
  intros Hm. rewrite !executePostAuthVoters_app. cbn [executePostAuthVoters].
  rewrite Hm. split; [done|].
  destruct (executePostAuthVoters this l1 context) as [t1 [[]|e]]; [|done].
  rewrite !bind_pair_return.
  destruct (executePostAuthVoters this l2 context) as [t2 r2].
  cbn [trace result fst snd]. split; [done|]. intros Ht.
  by rewrite !decision_calls_app, Ht.
Qed.

(** C3.  In the post phase, a voter rule whose resolved voter has a
    [supports] function that returns a false value for the produced data is
    skipped: the voter is resolved and [supports] is called, the decision
    method is not, the rule produces no denial (and no error), and the
    evaluation of the whole list ends exactly as if the rule were not
    there, with the same calls of decision functions. *)
Theorem post_supports_false_skips this context meta c voter supports r l1 l2 :
  staticMethod meta = None →
  voterClass meta = Some c →
  resolve this c = Return voter →
  voter !! "supports" = Some (PFunction supports) →
  supports (ArgData (vc_data context)) = Return r →
  truthy r = false →
  executePostAuthVoter this meta context =
    ([EvGetVoterInstance c; EvSupports c (vc_data context)], Return ()) ∧
  executePostAuthVoters this (l1 ++ meta :: l2) context =
    (executePostAuthVoters this l1 context ;;
     (([EvGetVoterInstance c; EvSupports c (vc_data context)], Return ()) : M unit) ;;
     executePostAuthVoters this l2 context) ∧
  result (executePostAuthVoters this (l1 ++ meta :: l2) context) =
    result (executePostAuthVoters this (l1 ++ l2) context) ∧
  decision_calls (trace (executePostAuthVoters this (l1 ++ meta :: l2) context)) =
    decision_calls (trace (executePostAuthVoters this (l1 ++ l2) context)).
Proof.
  intros Hs Hc Hres Hsup Hr Hfalse.
  assert (Hm : executePostAuthVoter this meta context =
               ([EvGetVoterInstance c; EvSupports c (vc_data context)], Return ())).
  { unfold executePostAuthVoter, getVoterInstance, supports_rejects.
    rewrite Hs, Hc. revert Hres. unfold resolve.
    destruct (moduleRef this c) as [voter'|].
    - intros [= ->]. unfold_M. rewrite Hsup, Hr. simpl. by rewrite Hfalse.
    - intros ->. unfold_M. rewrite Hsup, Hr. simpl. by rewrite Hfalse. }
  split; [exact Hm|].
  destruct (executePostAuthVoters_passing_rule this context l1 meta l2 _ Hm)
    as (H1 & H2 & H3).
  split; [exact H1|]. split; [exact H2|]. by apply H3.
Qed.

Lemma post_supports_false_skips_witness :
  let this := Sample.interceptor [] in
  let context := Sample.post_voterContext (Sample.a_user "user") (VString "test") in
  let meta := class_or_method_metadata (Sample.class Sample.CustomVoter) in
  executePostAuthVoter this meta context =
    ([EvGetVoterInstance Sample.CustomVoter; EvSupports Sample.CustomVoter (VString "test")],
     Return ()) ∧
  result (executePostAuthVoters this
            ([Sample.predicate Sample.alwaysTrue] ++ meta :: [Sample.predicate Sample.alwaysFalse])
            context) =
  result (executePostAuthVoters this
            ([Sample.predicate Sample.alwaysTrue] ++ [Sample.predicate Sample.alwaysFalse])
            context).
Proof.
  cbv zeta.
  destruct (post_supports_false_skips (Sample.interceptor [])
              (Sample.post_voterContext (Sample.a_user "user") (VString "test"))
              (class_or_method_metadata (Sample.class Sample.CustomVoter))
              Sample.CustomVoter Sample.CustomVoter_instance
              (λ _, Return (VBool false)) (VBool false)
              [Sample.predicate Sample.alwaysTrue] [Sample.predicate Sample.alwaysFalse])
    as (H1 & _ & H3 & _);
    [reflexivity | reflexivity | reflexivity | vm_compute; reflexivity
    | reflexivity | reflexivity |].
  split; [exact H1 | exact H3].
Defined.


(** C10.  A descriptor with neither a [staticMethod] nor a [voterClass]
    is, in both phases, silently allowed: its evaluation does nothing and
    returns normally (no event, no error, no denial), and the loop goes on
    with the next rule as if the descriptor were not in the list. *)
Theorem empty_descriptor_is_allowed this key context m :
  let meta := {| voterClass := None; methodName := m; staticMethod := None |} in
  executeVoter key this meta context = ([], Return ()) ∧
  ∀ l1 l2,
    executeVoters key this (l1 ++ meta :: l2) context =
    executeVoters key this (l1 ++ l2) context.
Proof.
  cbv zeta. split; [by destruct key|]. intros l1 l2.
  destruct key; cbn [executeVoters].
  - rewrite !executePreAuthVoters_app. cbn [executePreAuthVoters].
    unfold executePreAuthVoter. cbn [staticMethod voterClass].
    by rewrite bind_ret_l.
  - rewrite !executePostAuthVoters_app. cbn [executePostAuthVoters].
    unfold executePostAuthVoter. cbn [staticMethod voterClass].
    by rewrite bind_ret_l.
Qed.

(** ** The registry the decorators build *)

Lemma key_eqb_eq a b : key_eqb a b = true ↔ a = b.
Proof. by destruct a, b. Qed.

Lemma concerns_spec key target r :
  concerns key target r = true ↔ reg_key r = key ∧ reg_target r = target.
Proof.
  unfold concerns. rewrite andb_true_iff, key_eqb_eq, Nat.eqb_eq. tauto.
Qed.

Lemma getMetadata_defineMetadata key key' v target target' s :
  Reflect_getMetadata key' target' (Reflect_defineMetadata key v target s) =
  if key_eqb key key' && Nat.eqb target target' then Some v
  else Reflect_getMetadata key' target' s.
Proof.
  destruct key, key'; cbn [key_eqb andb Reflect_getMetadata Reflect_defineMetadata
                             pre_auth post_auth]; try done.
  - destruct (Nat.eqb_spec target target') as [->|Hne].
    + by rewrite lookup_insert_eq.
    + by rewrite lookup_insert_ne.
  - destruct (Nat.eqb_spec target target') as [->|Hne].
    + by rewrite lookup_insert_eq.
    + by rewrite lookup_insert_ne.
Qed.

Lemma register_append s r :
  register s r = append_metadata (reg_key r) (reg_metadata r) (reg_target r) s.
Proof. by destruct r. Qed.

(** One decorator extends the list of its own handler and phase at the
    end, and leaves every other list alone. *)
Lemma getMetadata_register key target s r :
  Reflect_getMetadata key target (register s r) =
  if concerns key target r
  then Some (rules_of key target s ++ [reg_metadata r])
  else Reflect_getMetadata key target s.
Proof.
  rewrite register_append. unfold append_metadata.
  rewrite getMetadata_defineMetadata. unfold concerns.
  destruct (key_eqb (reg_key r) key && Nat.eqb (reg_target r) target) eqn:E; [|done].
  apply andb_true_iff in E as [E1 E2].
  apply key_eqb_eq in E1 as <-. apply Nat.eqb_eq in E2 as <-. done.
Qed.

(** After any sequence of decorators, a handler has in a phase either no
    metadata at all or the non-empty list of its registrations, in order. *)
Lemma getMetadata_register_all key target rs :
  Reflect_getMetadata key target (register_all rs) =
  match registered_on key target rs with
  | [] => None
  | l => Some l
  end.
Proof.
  unfold register_all, registered_on.
  induction rs as [|r rs IH] using rev_ind.
  - by destruct key.
  - rewrite foldl_app. cbn [foldl]. rewrite getMetadata_register.
    rewrite List.filter_app, fmap_app. cbn [List.filter].
    unfold rules_of. rewrite IH.
    destruct (concerns key target r); cbn [fmap list_fmap].
    + destruct (reg_metadata <$> List.filter (concerns key target) rs); done.
    + by rewrite app_nil_r.
Qed.

Lemma rules_of_register_all key target rs :
  rules_of key target (register_all rs) = registered_on key target rs.
Proof.
  unfold rules_of. rewrite getMetadata_register_all.
  by destruct (registered_on key target rs).
Qed.

Lemma registered_on_app key target r1 r2 :
  registered_on key target (r1 ++ r2) =
  registered_on key target r1 ++ registered_on key target r2.
Proof. unfold registered_on. by rewrite List.filter_app, fmap_app. Qed.

Lemma registered_on_cons_concerned key target r rs :
  reg_key r = key → reg_target r = target →
  registered_on key target (r :: rs) = reg_metadata r :: registered_on key target rs.
Proof.
  intros Hk Ht. unfold registered_on. cbn [List.filter].
  by rewrite (proj2 (concerns_spec key target r) (conj Hk Ht)).
Qed.

(** ** Operations without rules *)

(** C4.  After any sequence of decorator applications, an operation on
    which no rule was registered in either phase is passed through:
    [intercept] only calls [next.handle()] and returns the very observable
    the handler gave.  The trace has no read of the request (no voter
    context is built) and no rule event, and the caller observes exactly
    what the handler's observable yields. *)
Theorem no_rules_pass_through rs mref context next :
  let this := {| reflector := register_all rs; moduleRef := mref |} in
  registered_on PRE_AUTH_VOTER_METADATA (handler_ref (getHandler context)) rs = [] →
  registered_on POST_AUTH_VOTER_METADATA (handler_ref (getHandler context)) rs = [] →
  intercept this context next = ([EvHandle], Return (handle_observable next)) ∧
  invoke this context next =
    (EvHandle :: trace (handle_observable next), result (handle_observable next)).
Proof.
  cbv zeta. intros Hpre Hpost.
  assert (Hi : intercept {| reflector := register_all rs; moduleRef := mref |}
                 context next = ([EvHandle], Return (handle_observable next))).
  { unfold intercept, reflector_get. cbn [reflector].
    by rewrite !getMetadata_register_all, Hpre, Hpost. }
  split; [exact Hi|].
  unfold invoke. rewrite Hi, bind_pair_return. done.
Qed.

Lemma no_rules_pass_through_witness :
  intercept
    {| reflector := register_all [RegPreAuthVoter (Sample.arrow Sample.alwaysFalse) 8;
                                  RegPostAuthVoter (Sample.class Sample.TestVoter) 9];
       moduleRef := λ _, None |}
    (Sample.http_context (Sample.a_user "user") (Some ∅))
    (Sample.of_data (VString "raw"))
  = ([EvHandle], Return (mret (VString "raw"))) ∧
  invoke
    {| reflector := register_all [RegPreAuthVoter (Sample.arrow Sample.alwaysFalse) 8;
                                  RegPostAuthVoter (Sample.class Sample.TestVoter) 9];
       moduleRef := λ _, None |}
    (Sample.http_context (Sample.a_user "user") (Some ∅))
    (Sample.of_data (VString "raw"))
  = ([EvHandle], Return (VString "raw")).
Proof.
  apply (no_rules_pass_through
           [RegPreAuthVoter (Sample.arrow Sample.alwaysFalse) 8;
            RegPostAuthVoter (Sample.class Sample.TestVoter) 9]
           (λ _, None)
           (Sample.http_context (Sample.a_user "user") (Some ∅))
           (Sample.of_data (VString "raw"))); reflexivity.
Defined.

(** ** Registration order *)

Lemma executeVoters_app key this l1 l2 context :
  executeVoters key this (l1 ++ l2) context =
  (executeVoters key this l1 context ;; executeVoters key this l2 context).
Proof.
  destruct key; [apply executePreAuthVoters_app|apply executePostAuthVoters_app].
Qed.

(** A rule that has a decision function has one event for its call. *)
Lemma decision_call_singleton this context meta v :
  returns this context meta v → ∃ e, decision_call context meta = [e].
Proof.
  intros (f & Hd & _). revert Hd. unfold decisionFunction, decision_call.
  destruct (staticMethod meta); [by eexists|].
  destruct (voterClass meta); [by eexists|done].
Qed.

(** In the post phase too, a rule whose decision function answers leaves
    exactly the call of that function among the decision calls. *)
Lemma executePostAuthVoter_calls this context meta v :
  answers this POST_AUTH_VOTER_METADATA context meta v →
  decision_calls (trace (executePostAuthVoter this meta context)) =
  decision_call context meta.
Proof.
  intros [Hc (f & Hd & Hf)]. revert Hc Hd.
  unfold consulted, decisionFunction, decision_call, executePostAuthVoter,
    getVoterInstance, supports_rejects, supports_accepts.
  destruct (staticMethod meta) as [g|].
  - intros _ [= ->]. unfold_M. rewrite Hf. simpl. by destruct (truthy v).
  - destruct (voterClass meta) as [c|]; [|done].
    assert (Hres : (tell (EvGetVoterInstance c) ;;
                    match moduleRef this c with
                    | Some voter => mret voter
                    | None => lift (construct c)
                    end) = ([EvGetVoterInstance c], resolve this c)).
    { unfold resolve. unfold_M.
      by destruct (moduleRef this c) as [?|]; [|destruct (construct c)]. }
    rewrite Hres. clear Hres.
    destruct (resolve this c) as [voter|?]; [|done].
    rewrite bind_pair_return.
    destruct (voter !! "supports") as [[s|w]|].
    + intros (r & Hr & Htr).
      destruct (voter !! methodName_or_vote meta) as [[g|?]|]; [|done..].
      intros [= ->]. unfold_M. rewrite Hr, Hf. simpl. rewrite Htr. simpl.
      by destruct (truthy v).
    + intros Hw.
      destruct (voter !! methodName_or_vote meta) as [[g|?]|]; [|done..].
      intros [= ->]. unfold_M. rewrite Hw, Hf. simpl. by destruct (truthy v).
    + intros _.
      destruct (voter !! methodName_or_vote meta) as [[g|?]|]; [|done..].
      intros [= ->]. unfold_M. rewrite Hf. simpl. by destruct (truthy v).
Qed.

(** What one answering rule contributes, in either phase: the call of its
    decision function, and the end of the loop unless the answer is true. *)
Lemma executeVoter_answers key this context meta v :
  answers this key context meta v →
  decision_calls (trace (executeVoter key this meta context)) =
    decision_call context meta ∧
  result (executeVoter key this meta context) =
    if truthy v then Return ()
    else Throw (VoterException (denial_reason key meta)).
Proof.
  intros Ha. split; [|by apply executeVoter_returns; destruct Ha].
  destruct key; cbn [executeVoter].
  - destruct Ha as [_ Hr]. rewrite (executePreAuthVoter_returns _ _ _ _ Hr).
    apply decision_calls_rule_trace.
  - by apply (executePostAuthVoter_calls _ _ _ v).
Qed.

Lemma bind_result_return {A B} (m : M A) (k : A → M B) a :
  result m = Return a → m ≫= k = (trace m ++ trace (k a), result (k a)).
Proof. destruct m as [t r]. cbn [result snd]. intros ->. apply bind_pair_return. Qed.

Lemma bind_result_throw {A B} (m : M A) (k : A → M B) e :
  result m = Throw e → m ≫= k = (trace m, Throw e).
Proof. destruct m as [t r]. cbn [result snd]. by intros ->. Qed.

(** Rules that all let the request through are all called, in the order
    of the list, and the loop completes. *)
Lemma executeVoters_all_let_through key this context rules :
  Forall (lets_through this key context) rules →
  decision_calls (trace (executeVoters key this rules context)) =
    flat_map (decision_call context) rules ∧
  result (executeVoters key this rules context) = Return ().
Proof.
  induction 1 as [|m rules (w & Ha & Hw) _ [IH1 IH2]]; [by destruct key|].
  rewrite executeVoters_cons.
  destruct (executeVoter_answers _ _ _ _ _ Ha) as [Hc Hr]. rewrite Hw in Hr.
  rewrite (bind_result_return _ _ _ Hr). cbn [trace result fst snd flat_map].
  by rewrite decision_calls_app, Hc, IH1.
Qed.

(** C8.  Let the decorators be applied in the order [r1 ++ a :: r2 ++ b ::
    r3], where [a] and [b] register on the same handler and phase ([a]
    first, with any registrations before, between and after them), and let
    the rules registered before [a] and between [a] and [b] let the request
    through, [A], the rule of [a], answer [vA] and [B], the rule of [b],
    answer [vB].  Then the list attached to the handler holds the
    descriptors in the order of their registration; its evaluation runs the
    rules in that order; and among the calls of decision functions the call
    of [A] comes after those of the rules registered before it and strictly
    before the call of [B], which is made only when [A] answered true, and
    the rules registered after [B] are called, after [B], only when [B]
    answered true. *)
Theorem evaluation_order_is_registration_order
    this context key target r1 a r2 b r3 vA vB :
  reg_key a = key → reg_target a = target →
  reg_key b = key → reg_target b = target →
  Forall (lets_through this key context) (registered_on key target r1) →
  answers this key context (reg_metadata a) vA →
  Forall (lets_through this key context) (registered_on key target r2) →
  answers this key context (reg_metadata b) vB →
  Reflect_getMetadata key target (register_all (r1 ++ a :: r2 ++ b :: r3)) =
    Some (registered_on key target r1 ++ reg_metadata a ::
          registered_on key target r2 ++ reg_metadata b ::
          registered_on key target r3) ∧
  executeVoters key this
    (rules_of key target (register_all (r1 ++ a :: r2 ++ b :: r3))) context =
    (executeVoters key this (registered_on key target r1) context ;;
     executeVoter key this (reg_metadata a) context ;;
     executeVoters key this (registered_on key target r2) context ;;
     executeVoter key this (reg_metadata b) context ;;
     executeVoters key this (registered_on key target r3) context) ∧
  ∃ callA callB,
    decision_call context (reg_metadata a) = [callA] ∧
    decision_call context (reg_metadata b) = [callB] ∧
    decision_calls
      (trace (executeVoters key this
                (rules_of key target (register_all (r1 ++ a :: r2 ++ b :: r3)))
                context)) =
    flat_map (decision_call context) (registered_on key target r1) ++
    callA ::
    (if truthy vA
     then flat_map (decision_call context) (registered_on key target r2) ++
          callB ::
          (if truthy vB
           then decision_calls
                  (trace (executeVoters key this (registered_on key target r3)
                            context))
           else [])
     else []).
Proof.
  intros Hka Hta Hkb Htb H1 HA H2 HB.
  assert (Hon : registered_on key target (r1 ++ a :: r2 ++ b :: r3) =
                registered_on key target r1 ++ reg_metadata a ::
                registered_on key target r2 ++ reg_metadata b ::
                registered_on key target r3).
  { rewrite registered_on_app, (registered_on_cons_concerned _ _ _ _ Hka Hta).
    by rewrite registered_on_app, (registered_on_cons_concerned _ _ _ _ Hkb Htb). }
  split; [|split].
  - rewrite getMetadata_register_all, Hon.
    by destruct (registered_on key target r1).
  - rewrite rules_of_register_all, Hon.
    destruct key; cbn [executeVoters executeVoter].
    + rewrite executePreAuthVoters_app. cbn [executePreAuthVoters].
      rewrite executePreAuthVoters_app. cbn [executePreAuthVoters].
      done.
    + rewrite executePostAuthVoters_app. cbn [executePostAuthVoters].
      rewrite executePostAuthVoters_app. cbn [executePostAuthVoters].
      done.
  - destruct (decision_call_singleton _ _ _ _ (proj2 HA)) as [callA HcA].
    destruct (decision_call_singleton _ _ _ _ (proj2 HB)) as [callB HcB].
    exists callA, callB. split; [done|]. split; [done|].
    rewrite rules_of_register_all, Hon.
    destruct (executeVoters_all_let_through _ _ _ _ H1) as [Hc1 Hr1].
    destruct (executeVoters_all_let_through _ _ _ _ H2) as [Hc2 Hr2].
    destruct (executeVoter_answers _ _ _ _ _ HA) as [HdA HrA].
    destruct (executeVoter_answers _ _ _ _ _ HB) as [HdB HrB].
    rewrite executeVoters_app, (bind_result_return _ _ _ Hr1).
    cbn [trace fst]. rewrite decision_calls_app, Hc1. f_equal.
    rewrite executeVoters_cons.
    destruct (truthy vA).
    + rewrite (bind_result_return _ _ _ HrA). cbn [trace fst].
      rewrite decision_calls_app, HdA, HcA. cbn [app]. f_equal.
      rewrite executeVoters_app, (bind_result_return _ _ _ Hr2).
      cbn [trace fst]. rewrite decision_calls_app, Hc2. f_equal.
      rewrite executeVoters_cons.
      destruct (truthy vB).
      * rewrite (bind_result_return _ _ _ HrB). cbn [trace fst].
        by rewrite decision_calls_app, HdB, HcB.
      * rewrite (bind_result_throw _ _ _ HrB). cbn [trace fst].
        by rewrite HdB, HcB.
    + rewrite (bind_result_throw _ _ _ HrA). cbn [trace fst].
      by rewrite HdA, HcA.
Qed.

Lemma evaluation_order_is_registration_order_witness :
  let rs := [RegPostAuthVoter (Sample.class Sample.TestVoter) 7]
              ++ RegPreAuthVoter (Sample.arrow Sample.alwaysTrue) 7
              :: [RegPreAuthVoterMethod Sample.TestVoter "canCreate" 8]
              ++ RegPreAuthVoterMethod Sample.TestVoter "canCreate" 7
              :: [RegPreAuthVoter (Sample.arrow Sample.alwaysFalse) 7] in
  let context := Sample.http_voterContext (Sample.a_user "admin") in
  Reflect_getMetadata PRE_AUTH_VOTER_METADATA 7 (register_all rs)
  = Some [Sample.predicate Sample.alwaysTrue;
          method_metadata Sample.TestVoter "canCreate";
          Sample.predicate Sample.alwaysFalse] ∧
  decision_calls
    (trace (executePreAuthVoters (Sample.interceptor [])
              (rules_of PRE_AUTH_VOTER_METADATA 7 (register_all rs)) context))
  = [EvStaticMethod Sample.alwaysTrue context;
     EvVoterMethod Sample.TestVoter "canCreate" context;
     EvStaticMethod Sample.alwaysFalse context].
Proof.
  cbv zeta.
  destruct (evaluation_order_is_registration_order (Sample.interceptor [])
              (Sample.http_voterContext (Sample.a_user "admin"))
              PRE_AUTH_VOTER_METADATA 7
              [RegPostAuthVoter (Sample.class Sample.TestVoter) 7]
              (RegPreAuthVoter (Sample.arrow Sample.alwaysTrue) 7)
              [RegPreAuthVoterMethod Sample.TestVoter "canCreate" 8]
              (RegPreAuthVoterMethod Sample.TestVoter "canCreate" 7)
              [RegPreAuthVoter (Sample.arrow Sample.alwaysFalse) 7]
              (VBool true) (VBool true))
    as (Hreg & _ & callA & callB & HA & HB & Hcalls).
  - reflexivity.
  - reflexivity.
  - reflexivity.
  - reflexivity.
  - constructor.
  - split; [exact I|]. eexists. split; reflexivity.
  - constructor.
  - split; [exact I|]. eexists. split; [vm_compute; reflexivity|].
    vm_compute. reflexivity.
  - split; [exact Hreg|].
    injection HA as <-. injection HB as <-. exact Hcalls.
Defined.

(** ** The arguments of an HTTP request *)

Lemma spread_union acc o : spread acc (Some o) = o ∪ acc.
Proof.
  unfold spread.
  apply (map_fold_weak_ind (λ r m, r = m ∪ acc)).
  - by rewrite (left_id_L ∅ (∪)).
  - intros i x m r _ ->. by rewrite insert_union_l.
Qed.

Lemma spread_default acc source : spread acc source = default ∅ source ∪ acc.
Proof.
  destruct source as [o|]; [apply spread_union|].
  cbn [spread default]. by rewrite (left_id_L ∅ (∪)).
Qed.

(** C5.  For an HTTP request, the arguments are the path parameters, then
    the query parameters, then the body, merged so that on a key collision
    the later source wins: a key of the body overrides the same key of the
    query, which overrides the same key of the path parameters (an absent
    source contributes nothing).  These are the arguments the voter context
    carries. *)
Theorem http_arguments_merge context :
  getType context = "http" →
  let request := switchToHttp_getRequest context in
  let p := default ∅ (params request) in
  let q := default ∅ (query request) in
  let b := default ∅ (body request) in
  ∃ args,
    getMethodArguments context = ([EvGetMethodArguments], Return args) ∧
    args = b ∪ q ∪ p ∧
    (∀ k, args !! k = match b !! k with
                      | Some v => Some v
                      | None => match q !! k with
                                | Some v => Some v
                                | None => p !! k
                                end
                      end) ∧
    ∃ vctx, createVoterContext context =
              ([EvGetRequest; EvGetMethodArguments; EvGetMethodContext], Return vctx) ∧
            vc_args vctx = args.
Proof.
  intros Hhttp. cbv zeta.
  assert (Hargs : getMethodArguments context =
    ([EvGetMethodArguments],
     Return (default ∅ (body (switchToHttp_getRequest context))
             ∪ default ∅ (query (switchToHttp_getRequest context))
             ∪ default ∅ (params (switchToHttp_getRequest context))))).
  { unfold getMethodArguments. rewrite Hhttp. cbn [String.eqb].
    rewrite !spread_default, (right_id_L ∅ (∪)), (assoc_L (∪)). done. }
  eexists. split; [exact Hargs|]. split; [done|]. split.
  - intros k. rewrite !lookup_union.
    destruct (default ∅ (body (switchToHttp_getRequest context)) !! k),
      (default ∅ (query (switchToHttp_getRequest context)) !! k),
      (default ∅ (params (switchToHttp_getRequest context)) !! k); done.
  - unfold createVoterContext. rewrite Hargs.
    unfold getRequest, getMethodContext, OperationType.HTTP. rewrite Hhttp.
    eexists. split; reflexivity.
Qed.

Lemma http_arguments_merge_witness :
  ∃ args,
    getMethodArguments
      {| getType := "http"; getHandler := Sample.the_handler;
         switchToHttp_getRequest :=
           {| user := VUndefined;
              params := Some {[ "id" := VString "path"; "page" := VNumber 1 ]};
              query := Some {[ "id" := VString "query"; "sort" := VString "asc" ]};
              body := Some {[ "id" := VString "body" ]} |};
         graphql := None |}
    = ([EvGetMethodArguments], Return args) ∧
    args !! "id" = Some (VString "body") ∧
    args !! "sort" = Some (VString "asc") ∧
    args !! "page" = Some (VNumber 1).
Proof.
  destruct (http_arguments_merge
              {| getType := "http"; getHandler := Sample.the_handler;
                 switchToHttp_getRequest :=
                   {| user := VUndefined;
                      params := Some {[ "id" := VString "path"; "page" := VNumber 1 ]};
                      query := Some {[ "id" := VString "query"; "sort" := VString "asc" ]};
                      body := Some {[ "id" := VString "body" ]} |};
                 graphql := None |})
    as (args & Hrun & _ & Hlookup & _); [reflexivity|].
  exists args. split; [exact Hrun|].
  rewrite !Hlookup. repeat split; vm_compute; reflexivity.
Defined.

(** ** Unknown GraphQL operation types *)

(** C6 (amended).  For an operation with at least one rule list attached
    (in either phase), invoked outside HTTP with a GraphQL operation type
    that is none of query, mutation and subscription, [intercept] fails
    with the plain [Error] "Unknown GraphQL operation type: ...", which is
    not a [VoterException]; the trace holds the three reads of the
    execution context only: no decision function has been called and
    [next.handle()] has not. *)
Theorem unknown_operation_type_rejected this context next gql :
  (reflector_get this PRE_AUTH_VOTER_METADATA (getHandler context) ≠ None ∨
   reflector_get this POST_AUTH_VOTER_METADATA (getHandler context) ≠ None) →
  getType context ≠ "http" →
  graphql context = Some gql →
  getInfo_operation gql ≠ "query" →
  getInfo_operation gql ≠ "mutation" →
  getInfo_operation gql ≠ "subscription" →
  intercept this context next =
    ([EvGetRequest; EvGetMethodArguments; EvGetMethodContext],
     Throw (Error ("Unknown GraphQL operation type: " +:+ getInfo_operation gql))) ∧
  invoke this context next =
    ([EvGetRequest; EvGetMethodArguments; EvGetMethodContext],
     Throw (Error ("Unknown GraphQL operation type: " +:+ getInfo_operation gql))).
Proof.
  intros Hrules Hhttp Hgql Hq Hm Hs.
  apply String.eqb_neq in Hhttp, Hq, Hm, Hs.
  assert (Hctx : createVoterContext context =
    ([EvGetRequest; EvGetMethodArguments; EvGetMethodContext],
     Throw (Error ("Unknown GraphQL operation type: " +:+ getInfo_operation gql)))).
  { unfold createVoterContext, getRequest, getMethodArguments, getMethodContext,
      getGqlExecutionContext, OperationType.HTTP, OperationType.QUERY,
      OperationType.MUTATION, OperationType.SUBSCRIPTION.
    rewrite Hhttp, Hgql. unfold_M. cbn. by rewrite Hq, Hm, Hs. }
  assert (Hi : intercept this context next =
    ([EvGetRequest; EvGetMethodArguments; EvGetMethodContext],
     Throw (Error ("Unknown GraphQL operation type: " +:+ getInfo_operation gql)))).
  { unfold intercept. rewrite Hctx.
    destruct (reflector_get this PRE_AUTH_VOTER_METADATA (getHandler context)),
      (reflector_get this POST_AUTH_VOTER_METADATA (getHandler context));
      try done. by destruct Hrules. }
  split; [exact Hi|]. unfold invoke. by rewrite Hi.
Qed.

Lemma unknown_operation_type_rejected_witness :
  intercept
    (Sample.interceptor [RegPreAuthVoter (Sample.arrow Sample.alwaysTrue) 7])
    (Sample.gql_context "introspection")
    (Sample.of_data (VString "x"))
  = ([EvGetRequest; EvGetMethodArguments; EvGetMethodContext],
     Throw (Error "Unknown GraphQL operation type: introspection")).
Proof.
  destruct (unknown_operation_type_rejected
              (Sample.interceptor [RegPreAuthVoter (Sample.arrow Sample.alwaysTrue) 7])
              (Sample.gql_context "introspection")
              (Sample.of_data (VString "x"))
              {| getContext_req := Some {| user := Sample.a_user "user"; params := None;
                                           query := None; body := None |};
                 getArgs := {[ "id" := VString "42" ]};
                 getInfo_fieldName := "post";
                 getInfo_operation := "introspection" |})
    as [H _]; [left; vm_compute; discriminate | discriminate | reflexivity
              | discriminate | discriminate | discriminate |].
  exact H.
Defined.

(** C6, as stated, fails: an operation on which no rule is registered,
    invoked with an operation type that is none of query, mutation and
    subscription, is passed through.  The handler runs, the caller gets its
    data, and no error is raised. *)
Lemma unknown_operation_type_without_rules_passes :
  let this := Sample.interceptor [] in
  let context := Sample.gql_context "introspection" in
  let next := Sample.of_data (VString "x") in
  getType context ≠ "http" ∧
  (∃ gql, graphql context = Some gql ∧
          getInfo_operation gql ≠ "query" ∧
          getInfo_operation gql ≠ "mutation" ∧
          getInfo_operation gql ≠ "subscription") ∧
  invoke this context next = ([EvHandle], Return (VString "x")) ∧
  handle_count (trace (intercept this context next)) = 1 ∧
  ¬ ∃ e, result (intercept this context next) = Throw e.
Proof.
  cbv zeta. split; [discriminate|]. split.
  - eexists. split; [reflexivity|]. repeat split; discriminate.
  - split; [vm_compute; reflexivity|]. split; [vm_compute; reflexivity|].
    intros [e He]. vm_compute in He. discriminate He.
Qed.

(** ** Configuration errors in the pre phase *)

(** C7.  In the pre phase, when the rules before rule [k] return true and
    rule [k] is a voter rule whose resolved voter has no callable property
    under the rule's method name, [intercept] fails with a configuration
    error and not with a [VoterException]: the [Error] "Method <m> not
    found in <Class>" when the property is absent, and the distinct
    [TypeError] "<m> is not a function in <Class>" when it is present but
    not a function.  The decision functions called are those of the rules
    before [k] only (rule [k] decides nothing), and [next.handle()] is
    never called. *)
Theorem pre_method_not_found this context next rules tr0 vctx k meta c voter :
  reflector_get this PRE_AUTH_VOTER_METADATA (getHandler context) = Some rules →
  createVoterContext context = (tr0, Return vctx) →
  rules !! k = Some meta →
  (∀ i m, i < k → rules !! i = Some m →
          ∃ w, returns this vctx m w ∧ truthy w = true) →
  staticMethod meta = None →
  voterClass meta = Some c →
  resolve this c = Return voter →
  (∀ f, voter !! methodName_or_vote meta ≠ Some (PFunction f)) →
  ∃ tr e,
    intercept this context next = (tr, Throw e) ∧
    e = match voter !! methodName_or_vote meta with
        | None => Error ("Method " +:+ methodName_or_vote meta +:+ " not found in "
                         +:+ name c)
        | Some _ => TypeError (methodName_or_vote meta +:+ " is not a function in "
                               +:+ name c)
        end ∧
    is_denial e = false ∧
    decision_calls tr = flat_map (decision_call vctx) (take k rules) ∧
    handle_count tr = 0.
Proof.
  intros Hpre Hctx Hk Hbefore Hs Hc Hres Hnf.
  assert (Hl1 : Forall (λ m, ∃ w, returns this vctx m w ∧ truthy w = true)
                  (take k rules)).
  { apply Forall_lookup. intros i m Hi.
    apply lookup_take_Some in Hi as [Hi Hlt]. eauto. }
  set (e := match voter !! methodName_or_vote meta with
            | None => Error ("Method " +:+ methodName_or_vote meta +:+ " not found in "
                             +:+ name c)
            | Some _ => TypeError (methodName_or_vote meta +:+ " is not a function in "
                                   +:+ name c)
            end).
  assert (Hm : executePreAuthVoter this meta vctx = ([EvGetVoterInstance c], Throw e)).
  { unfold executePreAuthVoter, getVoterInstance. rewrite Hs, Hc.
    assert (Hg : (tell (EvGetVoterInstance c) ;;
                  match moduleRef this c with
                  | Some voter => mret voter
                  | None => lift (construct c)
                  end) = ([EvGetVoterInstance c], Return voter)).
    { revert Hres. unfold resolve. unfold_M.
      destruct (moduleRef this c); [by intros [= ->]|by intros ->]. }
    rewrite Hg, bind_pair_return. subst e.
    destruct (voter !! methodName_or_vote meta) as [[f|w]|] eqn:E; [|done..].
    by destruct (Hnf f). }
  pose proof (executePreAuthVoters_first_throw this vctx _ _ (drop (S k) rules) _ _ Hl1 Hm)
    as Hrun.
  rewrite (take_drop_middle _ _ _ Hk) in Hrun.
  exists (tr0 ++ flat_map (rule_trace vctx) (take k rules) ++ [EvGetVoterInstance c]), e.
  split; [exact (intercept_pre_throw _ _ next _ _ _ _ _ Hpre Hctx Hrun)|].
  split; [done|].
  assert (Hq := createVoterContext_quiet context). rewrite Hctx in Hq.
  destruct Hq as [Hq1 Hq2]. cbn [trace fst] in Hq1, Hq2.
  split; [|split].
  - subst e. by destruct (voter !! methodName_or_vote meta).
  - rewrite !decision_calls_app, Hq1, decision_calls_flat_map. cbn.
    by rewrite app_nil_r.
  - by rewrite !handle_count_app, Hq2, handle_count_flat_map.
Qed.

Lemma pre_method_not_found_witness :
  (∃ tr e,
     intercept
       (Sample.interceptor [RegPreAuthVoter (Sample.arrow Sample.alwaysTrue) 7;
                            RegPreAuthVoterMethod Sample.TestVoter "nonExistentMethod" 7])
       (Sample.http_context (Sample.a_user "admin") (Some ∅))
       (Sample.of_data (VString "x")) = (tr, Throw e) ∧
     e = Error "Method nonExistentMethod not found in TestVoter" ∧
     handle_count tr = 0) ∧
  (∃ tr e,
     intercept
       (Sample.interceptor [RegPreAuthVoterMethod Sample.TestVoter "__proto__" 7])
       (Sample.http_context (Sample.a_user "admin") (Some ∅))
       (Sample.of_data (VString "x")) = (tr, Throw e) ∧
     e = TypeError "__proto__ is not a function in TestVoter" ∧
     handle_count tr = 0).
Proof.
  split.
  - destruct (pre_method_not_found
                (Sample.interceptor
                   [RegPreAuthVoter (Sample.arrow Sample.alwaysTrue) 7;
                    RegPreAuthVoterMethod Sample.TestVoter "nonExistentMethod" 7])
                (Sample.http_context (Sample.a_user "admin") (Some ∅))
                (Sample.of_data (VString "x"))
                [Sample.predicate Sample.alwaysTrue;
                 method_metadata Sample.TestVoter "nonExistentMethod"]
                [EvGetRequest; EvGetMethodArguments; EvGetMethodContext]
                (Sample.http_voterContext (Sample.a_user "admin"))
                1 (method_metadata Sample.TestVoter "nonExistentMethod")
                Sample.TestVoter Sample.TestVoter_instance)
      as (tr & e & Hrun & He & _ & _ & Hh).
    + vm_compute. reflexivity.
    + vm_compute. reflexivity.
    + reflexivity.
    + intros [|i] m Hi Hm; [|lia]. injection Hm as <-.
      exists (VBool true). split; [|reflexivity]. eexists. split; reflexivity.
    + reflexivity.
    + reflexivity.
    + reflexivity.
    + intros f Hf. vm_compute in Hf. discriminate Hf.
    + exists tr, e. split; [exact Hrun|]. split; [|exact Hh].
      rewrite He. vm_compute. reflexivity.
  - destruct (pre_method_not_found
                (Sample.interceptor [RegPreAuthVoterMethod Sample.TestVoter "__proto__" 7])
                (Sample.http_context (Sample.a_user "admin") (Some ∅))
                (Sample.of_data (VString "x"))
                [method_metadata Sample.TestVoter "__proto__"]
                [EvGetRequest; EvGetMethodArguments; EvGetMethodContext]
                (Sample.http_voterContext (Sample.a_user "admin"))
                0 (method_metadata Sample.TestVoter "__proto__")
                Sample.TestVoter Sample.TestVoter_instance)
      as (tr & e & Hrun & He & _ & _ & Hh).
    + vm_compute. reflexivity.
    + vm_compute. reflexivity.
    + reflexivity.
    + intros i m Hi. lia.
    + reflexivity.
    + reflexivity.
    + reflexivity.
    + intros f Hf. vm_compute in Hf. discriminate Hf.
    + exists tr, e. split; [exact Hrun|]. split; [|exact Hh].
      rewrite He. vm_compute. reflexivity.
Defined.

(** A descriptor with neither field, alone on an operation: the request
    goes through to the handler. *)
Example empty_descriptor_lets_request_through :
  let this := {| reflector :=
                   Reflect_defineMetadata PRE_AUTH_VOTER_METADATA
                     [{| voterClass := None; methodName := Some "vote";
                         staticMethod := None |}] 7 empty_store;
                 moduleRef := λ _, None |} in
  invoke this (Sample.http_context (Sample.a_user "user") (Some ∅))
    (Sample.of_data (VString "secret"))
  = ([EvGetRequest; EvGetMethodArguments; EvGetMethodContext; EvHandle],
     Return (VString "secret")).
Proof. vm_compute. reflexivity. Qed.

(** 'should execute both pre and post authorization' *)
Example pre_and_post_pass :
  invoke (Sample.interceptor [RegPreAuthVoterMethod Sample.TestVoter "canCreate" 7;
                              RegPostAuthVoter (Sample.class Sample.TestVoter) 7])
    (Sample.http_context (Sample.a_user "admin") (Some ∅))
    (Sample.of_data (VObject {[ "allowAccess" := VBool true ]}))
  = ([EvGetRequest; EvGetMethodArguments; EvGetMethodContext;
      EvGetVoterInstance Sample.TestVoter;
      EvVoterMethod Sample.TestVoter "canCreate"
        (Sample.http_voterContext (Sample.a_user "admin"));
      EvHandle;
      EvGetVoterInstance Sample.TestVoter;
      EvSupports Sample.TestVoter (VObject {[ "allowAccess" := VBool true ]});
      EvVoterMethod Sample.TestVoter "vote"
        (Sample.post_voterContext (Sample.a_user "admin")
           (VObject {[ "allowAccess" := VBool true ]}))],
     Return (VObject {[ "allowAccess" := VBool true ]})).
Proof. vm_compute. reflexivity. Qed.

(** ** The events of rule evaluation *)

Lemma count_app kind t1 t2 : count kind (t1 ++ t2) = count kind t1 + count kind t2.
Proof. unfold count. by rewrite List.filter_app, length_app. Qed.

Lemma count_none kind t :
  Forall (λ e, kind e = false) t → count kind t = 0.
Proof.
  unfold count. induction 1 as [|e t He _ IH]; [done|].
  cbn [List.filter]. by rewrite He.
Qed.

Lemma handle_count_count t : handle_count t = count is_handle t.
Proof. done. Qed.

Lemma bind_trace_Forall {A B} (P : event → Prop) (m : M A) (k : A → M B) :
  Forall P (trace m) → (∀ a, Forall P (trace (k a))) → Forall P (trace (m ≫= k)).
Proof.
  intros Hm Hk. destruct m as [t [a|e]]; [|done].
  rewrite bind_pair_return. cbn [trace fst] in *. apply Forall_app; auto.
Qed.

(** The pre phase resolves voters and calls decision functions, nothing
    else. *)
Lemma executePreAuthVoter_events this meta context :
  Forall (λ e, is_rule_event e = true ∧ is_supports_call e = false)
    (trace (executePreAuthVoter this meta context)).
Proof.
  unfold executePreAuthVoter, getVoterInstance.
  destruct (staticMethod meta) as [f|].
  - apply bind_trace_Forall.
    + apply bind_trace_Forall; [by repeat constructor|intros []; constructor].
    + intros v. destruct (truthy v); constructor.
  - destruct (voterClass meta) as [c|]; [|constructor].
    apply bind_trace_Forall.
    + apply bind_trace_Forall; [by repeat constructor|].
      intros []. destruct (moduleRef this c); constructor.
    + intros voter. destruct (voter !! methodName_or_vote meta) as [[f|w]|];
        [|constructor..].
      apply bind_trace_Forall.
      * apply bind_trace_Forall; [by repeat constructor|intros []; constructor].
      * intros v. destruct (truthy v); constructor.
Qed.

Lemma executePreAuthVoters_events this rules context :
  Forall (λ e, is_rule_event e = true ∧ is_supports_call e = false)
    (trace (executePreAuthVoters this rules context)).
Proof.
  induction rules as [|meta rules IH]; [constructor|].
  cbn [executePreAuthVoters]. apply bind_trace_Forall; [|by intros].
  apply executePreAuthVoter_events.
Qed.

Lemma executePostAuthVoter_events this meta context :
  Forall (λ e, is_rule_event e = true) (trace (executePostAuthVoter this meta context)).
Proof.
  unfold executePostAuthVoter, getVoterInstance, supports_rejects.
  destruct (staticMethod meta) as [f|].
  - apply bind_trace_Forall.
    + apply bind_trace_Forall; [by repeat constructor|intros []; constructor].
    + intros v. destruct (truthy v); constructor.
  - destruct (voterClass meta) as [c|]; [|constructor].
    apply bind_trace_Forall.
    + apply bind_trace_Forall; [by repeat constructor|].
      intros []. destruct (moduleRef this c); constructor.
    + intros voter. apply bind_trace_Forall.
      * destruct (voter !! "supports") as [[s|w]|]; [| |constructor].
        -- apply bind_trace_Forall; [|intros; constructor].
           apply bind_trace_Forall; [by repeat constructor|intros []; constructor].
        -- destruct (truthy w); constructor.
      * intros [|]; [constructor|].
        destruct (voter !! methodName_or_vote meta) as [[f|w]|]; [|constructor..].
        apply bind_trace_Forall.
        -- apply bind_trace_Forall; [by repeat constructor|intros []; constructor].
        -- intros v. destruct (truthy v); constructor.
Qed.

Lemma executePostAuthVoters_events this rules context :
  Forall (λ e, is_rule_event e = true) (trace (executePostAuthVoters this rules context)).
Proof.
  induction rules as [|meta rules IH]; [constructor|].
  cbn [executePostAuthVoters]. apply bind_trace_Forall; [|by intros].
  apply executePostAuthVoter_events.
Qed.

Lemma rule_events_no_handle t :
  Forall (λ e, is_rule_event e = true) t → handle_count t = 0.
Proof.
  intros H. rewrite handle_count_count. apply count_none.
  eapply Forall_impl; [exact H|]. by intros [].
Qed.

(** ** [intercept] and [invoke] as a sequence of phases *)

(** For a decorated handler, [intercept] builds the voter context, runs the
    pre-phase loop, calls [next.handle()] and returns the handler's
    observable piped through the post-phase loop. *)
Lemma intercept_decorated this context next :
  decorated this context →
  intercept this context next =
  (voterContext ← createVoterContext context;
   executePreAuthVoters this (pre_rules this context) voterContext ;;
   tell EvHandle ;;
   mret (pipe_mergeMap (handle_observable next) (λ data,
           executePostAuthVoters this (post_rules this context)
             (set_data voterContext data) ;;
           mret data))).
Proof.
  unfold decorated, intercept, pre_rules, post_rules, handle, pipe_mergeMap.
  intros Hdec.
  destruct (reflector_get this PRE_AUTH_VOTER_METADATA (getHandler context)) as [pre|],
    (reflector_get this POST_AUTH_VOTER_METADATA (getHandler context)) as [post|];
    cbn [default]; [| | |by destruct Hdec];
    destruct (createVoterContext context) as [t0 [vctx|e]]; try done.
  assert (Hobs : (handle_observable next ≫= λ data,
                    executePostAuthVoters this [] (set_data vctx data) ;; mret data)
                 = handle_observable next).
  { destruct (handle_observable next) as [th [d|e]]; [|done].
    unfold_M. cbn. by rewrite app_nil_r. }
  unfold id. rewrite !bind_pair_return. cbv beta. by rewrite Hobs.
Qed.

Lemma invoke_decorated this context next :
  decorated this context →
  invoke this context next =
  (voterContext ← createVoterContext context;
   executePreAuthVoters this (pre_rules this context) voterContext ;;
   tell EvHandle ;;
   data ← handle_observable next;
   executePostAuthVoters this (post_rules this context) (set_data voterContext data) ;;
   mret data).
Proof.
  intros Hdec. unfold invoke. rewrite (intercept_decorated _ _ _ Hdec).
  unfold pipe_mergeMap.
  destruct (createVoterContext context) as [t0 [vctx|e]]; [|done].
  rewrite !bind_pair_return. cbv beta.
  destruct (executePreAuthVoters this (pre_rules this context) vctx) as [tp [[]|e]];
    [|done].
  rewrite !bind_pair_return. cbv beta.
  destruct (handle_observable next) as [th [d|e]].
  - rewrite !bind_pair_return. cbv beta.
    destruct (executePostAuthVoters this (post_rules this context) (set_data vctx d))
      as [tq [[]|e]]; unfold_M; cbn; by rewrite <- ?app_assoc, ?app_nil_r.
  - unfold_M. cbn. by rewrite <- !app_assoc.
Qed.

(** X1.  [intercept] calls [next.handle()] at most once, and exactly when
    it resolves: whenever it rejects (a failure while the voter context is
    built, a denial or any other exception of the pre phase) the handler
    has not been called, and whenever it returns an observable the handler
    has been called once. *)
Theorem intercept_calls_handler_iff_it_resolves this context next :
  handle_count (trace (intercept this context next)) =
  match result (intercept this context next) with
  | Return _ => 1
  | Throw _ => 0
  end.
Proof.
  destruct (reflector_get this PRE_AUTH_VOTER_METADATA (getHandler context))
    as [pre|] eqn:Hpre.
  2: destruct (reflector_get this POST_AUTH_VOTER_METADATA (getHandler context))
       as [post|] eqn:Hpost.
  3: { unfold intercept. by rewrite Hpre, Hpost. }
  all: rewrite intercept_decorated
         by (unfold decorated; rewrite ?Hpre, ?Hpost; auto);
       pose proof (createVoterContext_quiet context) as [_ Hq];
       destruct (createVoterContext context) as [t0 [vctx|e]]; [|exact Hq];
       cbn [trace fst] in Hq; rewrite bind_pair_return; cbn [trace result fst snd];
       pose proof (rule_events_no_handle _
                     (Forall_impl _ _ _
                        (executePreAuthVoters_events this (pre_rules this context) vctx)
                        (λ e H, proj1 H))) as Hp;
       destruct (executePreAuthVoters this (pre_rules this context) vctx)
         as [tp [[]|e]]; cbn [trace fst] in Hp;
       rewrite ?bind_pair_return, ?bind_pair_throw; cbn [trace result fst snd];
       rewrite ?handle_count_app, Hq, ?Hp; reflexivity.
Qed.

(** X2.  When both phases let the request through, the caller gets the
    handler's output unchanged, whatever the voters are: the trace is the
    reads of the request, the pre phase, one call of the handler, the
    handler's own events, then the post phase run on the context whose data
    is that output. *)
Theorem allowed_request_returns_handler_output this context next t0 vctx tp th d tq :
  decorated this context →
  createVoterContext context = (t0, Return vctx) →
  executePreAuthVoters this (pre_rules this context) vctx = (tp, Return ()) →
  handle_observable next = (th, Return d) →
  executePostAuthVoters this (post_rules this context) (set_data vctx d)
    = (tq, Return ()) →
  invoke this context next = (t0 ++ tp ++ EvHandle :: th ++ tq, Return d).
Proof.
  intros Hdec Hctx Hpre Hh Hpost. rewrite (invoke_decorated _ _ _ Hdec), Hctx.
  rewrite bind_pair_return, Hpre, bind_pair_return. unfold tell.
  rewrite bind_pair_return, Hh, bind_pair_return, Hpost, bind_pair_return.
  cbn. by rewrite app_nil_r.
Qed.

Lemma allowed_request_returns_handler_output_witness :
  invoke (Sample.interceptor [RegPreAuthVoterMethod Sample.TestVoter "canCreate" 7;
                              RegPostAuthVoter (Sample.class Sample.TestVoter) 7])
    (Sample.http_context (Sample.a_user "admin") (Some ∅))
    (Sample.of_data (VObject {[ "allowAccess" := VBool true ]}))
  = ([EvGetRequest; EvGetMethodArguments; EvGetMethodContext]
       ++ [EvGetVoterInstance Sample.TestVoter;
           EvVoterMethod Sample.TestVoter "canCreate"
             (Sample.http_voterContext (Sample.a_user "admin"))]
       ++ EvHandle :: []
       ++ [EvGetVoterInstance Sample.TestVoter;
           EvSupports Sample.TestVoter (VObject {[ "allowAccess" := VBool true ]});
           EvVoterMethod Sample.TestVoter "vote"
             (Sample.post_voterContext (Sample.a_user "admin")
                (VObject {[ "allowAccess" := VBool true ]}))],
     Return (VObject {[ "allowAccess" := VBool true ]})).
Proof.
  apply (allowed_request_returns_handler_output
           (Sample.interceptor [RegPreAuthVoterMethod Sample.TestVoter "canCreate" 7;
                                RegPostAuthVoter (Sample.class Sample.TestVoter) 7])
           (Sample.http_context (Sample.a_user "admin") (Some ∅))
           (Sample.of_data (VObject {[ "allowAccess" := VBool true ]}))
           [EvGetRequest; EvGetMethodArguments; EvGetMethodContext]
           (Sample.http_voterContext (Sample.a_user "admin"))).
  - left. vm_compute. discriminate.
  - vm_compute. reflexivity.
  - vm_compute. reflexivity.
  - reflexivity.
  - vm_compute. reflexivity.
Defined.

(** X3.  When the post phase throws (a denial or any other exception), the
    caller gets that exception and not the handler's output, although the
    handler has run: its call and its events are in the trace, before the
    post phase. *)
Theorem post_phase_exception_withholds_output this context next t0 vctx tp th d tq e :
  decorated this context →
  createVoterContext context = (t0, Return vctx) →
  executePreAuthVoters this (pre_rules this context) vctx = (tp, Return ()) →
  handle_observable next = (th, Return d) →
  executePostAuthVoters this (post_rules this context) (set_data vctx d)
    = (tq, Throw e) →
  invoke this context next = (t0 ++ tp ++ EvHandle :: th ++ tq, Throw e) ∧
  handle_count (trace (intercept this context next)) = 1.
Proof.
  intros Hdec Hctx Hpre Hh Hpost. split.
  - rewrite (invoke_decorated _ _ _ Hdec), Hctx.
    rewrite bind_pair_return, Hpre, bind_pair_return. unfold tell.
    by rewrite bind_pair_return, Hh, bind_pair_return, Hpost, bind_pair_throw.
  - rewrite (intercept_decorated _ _ _ Hdec), Hctx.
    rewrite bind_pair_return, Hpre, bind_pair_return. cbn [trace fst].
    pose proof (createVoterContext_quiet context) as [_ Hq].
    rewrite Hctx in Hq. cbn [trace fst] in Hq.
    pose proof (rule_events_no_handle _
                  (Forall_impl _ _ _
                     (executePreAuthVoters_events this (pre_rules this context) vctx)
                     (λ e H, proj1 H))) as Hp.
    rewrite Hpre in Hp. cbn [trace fst] in Hp.
    by rewrite !handle_count_app, Hq, Hp.
Qed.

Lemma post_phase_exception_withholds_output_witness :
  invoke (Sample.interceptor [RegPostAuthVoter (Sample.class Sample.TestVoter) 7])
    (Sample.http_context (Sample.a_user "user") (Some ∅))
    (Sample.of_data (VObject {[ "allowAccess" := VBool false ]}))
  = ([EvGetRequest; EvGetMethodArguments; EvGetMethodContext] ++ [] ++ EvHandle :: []
       ++ [EvGetVoterInstance Sample.TestVoter;
           EvSupports Sample.TestVoter (VObject {[ "allowAccess" := VBool false ]});
           EvVoterMethod Sample.TestVoter "vote"
             (Sample.post_voterContext (Sample.a_user "user")
                (VObject {[ "allowAccess" := VBool false ]}))],
     Throw (VoterException "Post-authorization denied by TestVoter.vote")) ∧
  handle_count
    (trace (intercept
              (Sample.interceptor [RegPostAuthVoter (Sample.class Sample.TestVoter) 7])
              (Sample.http_context (Sample.a_user "user") (Some ∅))
              (Sample.of_data (VObject {[ "allowAccess" := VBool false ]})))) = 1.
Proof.
  apply (post_phase_exception_withholds_output
           (Sample.interceptor [RegPostAuthVoter (Sample.class Sample.TestVoter) 7])
           (Sample.http_context (Sample.a_user "user") (Some ∅))
           (Sample.of_data (VObject {[ "allowAccess" := VBool false ]}))
           [EvGetRequest; EvGetMethodArguments; EvGetMethodContext]
           (Sample.http_voterContext (Sample.a_user "user"))
           [] [] (VObject {[ "allowAccess" := VBool false ]})).
  - right. vm_compute. discriminate.
  - vm_compute. reflexivity.
  - vm_compute. reflexivity.
  - reflexivity.
  - vm_compute. reflexivity.
Defined.

(** X4.  When the handler's observable errors, the caller gets the
    handler's error as it is and the post phase is not entered: nothing
    follows the handler's own events in the trace. *)
Theorem handler_error_bypasses_post_phase this context next t0 vctx tp th e :
  decorated this context →
  createVoterContext context = (t0, Return vctx) →
  executePreAuthVoters this (pre_rules this context) vctx = (tp, Return ()) →
  handle_observable next = (th, Throw e) →
  invoke this context next = (t0 ++ tp ++ EvHandle :: th, Throw e).
Proof.
  intros Hdec Hctx Hpre Hh. rewrite (invoke_decorated _ _ _ Hdec), Hctx.
  rewrite bind_pair_return, Hpre, bind_pair_return. unfold tell.
  by rewrite bind_pair_return, Hh, bind_pair_throw.
Qed.

Lemma handler_error_bypasses_post_phase_witness :
  invoke (Sample.interceptor [RegPostAuthVoter (Sample.arrow Sample.alwaysFalse) 7])
    (Sample.http_context (Sample.a_user "user") (Some ∅))
    {| handle_observable := ([], Throw (Error "user not found")) |}
  = ([EvGetRequest; EvGetMethodArguments; EvGetMethodContext; EvHandle],
     Throw (Error "user not found")).
Proof.
  apply (handler_error_bypasses_post_phase
           (Sample.interceptor [RegPostAuthVoter (Sample.arrow Sample.alwaysFalse) 7])
           (Sample.http_context (Sample.a_user "user") (Some ∅))
           {| handle_observable := ([], Throw (Error "user not found")) |}
           [EvGetRequest; EvGetMethodArguments; EvGetMethodContext]
           (Sample.http_voterContext (Sample.a_user "user")) [] []).
  - right. vm_compute. discriminate.
  - vm_compute. reflexivity.
  - vm_compute. reflexivity.
  - reflexivity.
Defined.

(** X5.  When building the voter context fails on a decorated handler
    (GraphQL module missing, unknown operation type, no request), the
    failure is what [intercept] rejects with and what the caller gets; no
    decision function has been called, no voter resolved, and the handler
    has not been called. *)
Theorem context_failure_precedes_rules this context next t e :
  decorated this context →
  createVoterContext context = (t, Throw e) →
  intercept this context next = (t, Throw e) ∧
  invoke this context next = (t, Throw e) ∧
  count is_rule_event t = 0 ∧
  handle_count t = 0.
Proof.
  intros Hdec Hctx.
  rewrite (intercept_decorated _ _ _ Hdec), (invoke_decorated _ _ _ Hdec), Hctx.
  split; [done|]. split; [done|].
  destruct (createVoterContext_trace context) as [n Hn]. rewrite Hctx in Hn.
  cbn [trace fst] in Hn. subst t.
  destruct n as [|[|[|[|n]]]]; split; reflexivity.
Qed.

Lemma context_failure_precedes_rules_witness :
  invoke (Sample.interceptor [RegPreAuthVoter (Sample.arrow Sample.alwaysTrue) 7])
    {| getType := "graphql"; getHandler := Sample.the_handler;
       switchToHttp_getRequest := Sample.no_request; graphql := None |}
    (Sample.of_data (VString "x"))
  = ([EvGetRequest],
     Throw (Error ("GraphQL context detected but @nestjs/graphql is not installed. "
                   +:+ "Please install it with: npm install @nestjs/graphql"))).
Proof.
  destruct (context_failure_precedes_rules
              (Sample.interceptor [RegPreAuthVoter (Sample.arrow Sample.alwaysTrue) 7])
              {| getType := "graphql"; getHandler := Sample.the_handler;
                 switchToHttp_getRequest := Sample.no_request; graphql := None |}
              (Sample.of_data (VString "x"))
              [EvGetRequest]
              (Error ("GraphQL context detected but @nestjs/graphql is not installed. "
                      +:+ "Please install it with: npm install @nestjs/graphql")))
    as (_ & H & _).
  - left. vm_compute. discriminate.
  - vm_compute. reflexivity.
  - exact H.
Defined.

(** ** What rule evaluation does and does not do *)

(** X6.  The pre phase never calls [supports]: whatever the rules, the
    voters and the context are, no [supports] call occurs in the trace of
    [executePreAuthVoters] (the filter is a post-phase matter only). *)
Theorem pre_phase_never_calls_supports this rules context :
  count is_supports_call (trace (executePreAuthVoters this rules context)) = 0.
Proof.
  apply count_none.
  eapply Forall_impl; [apply executePreAuthVoters_events|]. by intros e [_ He].
Qed.

(** X7.  In either phase, a rule whose evaluation throws (a denial, a
    configuration error, an exception of the voter) ends the loop: the
    rules after it are not evaluated, so trace and outcome do not depend on
    them. *)
Theorem throwing_rule_ends_the_loop key this context l1 meta l2 t e :
  executeVoter key this meta context = (t, Throw e) →
  executeVoters key this (l1 ++ meta :: l2) context =
  executeVoters key this (l1 ++ [meta]) context ∧
  (∀ t1, executeVoters key this l1 context = (t1, Return ()) →
         executeVoters key this (l1 ++ meta :: l2) context = (t1 ++ t, Throw e)).
Proof.
  intros Hm.
  assert (Hcons : ∀ l, executeVoters key this (meta :: l) context = (t, Throw e)).
  { intros l. destruct key; cbn [executeVoters executeVoter] in *;
      cbn [executePreAuthVoters executePostAuthVoters]; by rewrite Hm. }
  split.
  - by rewrite !executeVoters_app, !Hcons.
  - intros t1 H1. by rewrite executeVoters_app, H1, bind_pair_return, Hcons.
Qed.

Lemma throwing_rule_ends_the_loop_witness :
  executePreAuthVoters (Sample.interceptor [])
    ([Sample.predicate Sample.alwaysTrue]
       ++ method_metadata Sample.TestVoter "nonExistentMethod"
       :: [Sample.predicate Sample.alwaysFalse])
    (Sample.http_voterContext (Sample.a_user "user"))
  = executePreAuthVoters (Sample.interceptor [])
      ([Sample.predicate Sample.alwaysTrue]
         ++ [method_metadata Sample.TestVoter "nonExistentMethod"])
      (Sample.http_voterContext (Sample.a_user "user")).
Proof.
  destruct (throwing_rule_ends_the_loop PRE_AUTH_VOTER_METADATA (Sample.interceptor [])
              (Sample.http_voterContext (Sample.a_user "user"))
              [Sample.predicate Sample.alwaysTrue]
              (method_metadata Sample.TestVoter "nonExistentMethod")
              [Sample.predicate Sample.alwaysFalse]
              [EvGetVoterInstance Sample.TestVoter]
              (Error "Method nonExistentMethod not found in TestVoter"))
    as [H _]; [vm_compute; reflexivity|].
  exact H.
Defined.

(** X8.  An exception thrown by a rule's decision function is neither
    swallowed nor turned into a denial: when the rules before let the
    evaluation go on (and, in the post phase, [supports] did not reject the
    data), the loop ends with that very exception. *)
Theorem decision_function_exception_propagates key this context l1 meta l2 f e :
  Forall (λ m, result (executeVoter key this m context) = Return ()) l1 →
  consulted this key context meta →
  decisionFunction this meta = Some f →
  f (ArgContext context) = Throw e →
  result (executeVoters key this (l1 ++ meta :: l2) context) = Throw e.
Proof.
  intros Hl1 Hc Hd Hf.
  rewrite (executeVoters_skip_passing _ _ _ _ _ Hl1), executeVoters_cons.
  assert (Hm : result (executeVoter key this meta context) = Throw e).
  { revert Hc Hd.
    destruct key; cbn [executeVoter consulted];
      unfold decisionFunction, executePreAuthVoter, executePostAuthVoter,
        getVoterInstance, supports_rejects, supports_accepts;
      (destruct (staticMethod meta) as [g|];
       [intros _ [= ->]; unfold_M; by rewrite Hf|]);
      (destruct (voterClass meta) as [c|]; [|done]);
      assert (Hres : (tell (EvGetVoterInstance c) ;;
                      match moduleRef this c with
                      | Some voter => mret voter
                      | None => lift (construct c)
                      end) = ([EvGetVoterInstance c], resolve this c))
        by (unfold resolve; unfold_M;
            by destruct (moduleRef this c) as [?|]; [|destruct (construct c)]);
      rewrite Hres; clear Hres;
      (destruct (resolve this c) as [voter|?]; [|done]);
      rewrite bind_pair_return.
    - intros _. destruct (voter !! methodName_or_vote meta) as [[g|?]|]; [|done..].
      intros [= ->]. unfold_M. by rewrite Hf.
    - destruct (voter !! "supports") as [[s|w]|].
      + intros (r & Hr & Htr).
        destruct (voter !! methodName_or_vote meta) as [[g|?]|]; [|done..].
        intros [= ->]. unfold_M. rewrite Hr. cbn. rewrite Htr. cbn. by rewrite Hf.
      + intros Hw.
        destruct (voter !! methodName_or_vote meta) as [[g|?]|]; [|done..].
        intros [= ->]. unfold_M. rewrite Hw. cbn. by rewrite Hf.
      + intros _.
        destruct (voter !! methodName_or_vote meta) as [[g|?]|]; [|done..].
        intros [= ->]. unfold_M. cbn. by rewrite Hf. }
  destruct (executeVoter key this meta context) as [t r]. cbn [result snd] in Hm.
  by subst r.
Qed.

Lemma decision_function_exception_propagates_witness :
  result (executePreAuthVoters (Sample.interceptor [])
            ([Sample.predicate Sample.alwaysTrue]
               ++ method_metadata Sample.CustomVoter "vote"
               :: [Sample.predicate Sample.alwaysTrue])
            (Sample.http_voterContext (Sample.a_user "user")))
  = Throw (Error "Should not be called").
Proof.
  apply (decision_function_exception_propagates PRE_AUTH_VOTER_METADATA
           (Sample.interceptor [])
           (Sample.http_voterContext (Sample.a_user "user"))
           [Sample.predicate Sample.alwaysTrue]
           (method_metadata Sample.CustomVoter "vote")
           [Sample.predicate Sample.alwaysTrue]
           (λ _, Throw (Error "Should not be called"))
           (Error "Should not be called")).
  - repeat constructor.
  - exact I.
  - vm_compute. reflexivity.
  - reflexivity.
Defined.

(** X9.  In the post phase a voter that has no [supports] at all, or the
    one inherited from [BaseVoter] (which returns true), is never skipped:
    its decision method is called with the context carrying the produced
    data, and its answer decides the rule. *)
Theorem default_supports_never_skips this context meta c voter f :
  staticMethod meta = None →
  voterClass meta = Some c →
  resolve this c = Return voter →
  (voter !! "supports" = None ∨
   voter !! "supports" = Some (PFunction BaseVoter.supports)) →
  voter !! methodName_or_vote meta = Some (PFunction f) →
  decision_calls (trace (executePostAuthVoter this meta context)) =
    [EvVoterMethod c (methodName_or_vote meta) context] ∧
  result (executePostAuthVoter this meta context) =
    match f (ArgContext context) with
    | Return v =>
        if truthy v then Return ()
        else Throw (VoterException
               ("Post-authorization denied by " +:+ name c +:+ "."
                  +:+ methodName_or_vote meta))
    | Throw e => Throw e
    end.
Proof.
  intros Hs Hc Hres Hsup Hm.
  unfold executePostAuthVoter, getVoterInstance, supports_rejects.
  rewrite Hs, Hc.
  assert (Hg : (tell (EvGetVoterInstance c) ;;
                match moduleRef this c with
                | Some voter => mret voter
                | None => lift (construct c)
                end) = ([EvGetVoterInstance c], Return voter)).
  { revert Hres. unfold resolve. unfold_M.
    destruct (moduleRef this c); [by intros [= ->]|by intros ->]. }
  rewrite Hg, bind_pair_return. clear Hg.
  destruct Hsup as [-> | ->]; rewrite Hm; unfold_M; cbn;
    destruct (f (ArgContext context)) as [v|e]; cbn; [|done| |done];
    by destruct (truthy v).
Qed.

Lemma default_supports_never_skips_witness :
  decision_calls
    (trace (executePostAuthVoter (Sample.interceptor [])
              (method_metadata Sample.TestVoter "vote")
              (Sample.post_voterContext (Sample.a_user "user")
                 (VObject {[ "allowAccess" := VBool true ]}))))
  = [EvVoterMethod Sample.TestVoter "vote"
       (Sample.post_voterContext (Sample.a_user "user")
          (VObject {[ "allowAccess" := VBool true ]}))] ∧
  result (executePostAuthVoter (Sample.interceptor [])
            (method_metadata Sample.TestVoter "vote")
            (Sample.post_voterContext (Sample.a_user "user")
               (VObject {[ "allowAccess" := VBool true ]})))
  = Return ().
Proof.
  destruct (default_supports_never_skips (Sample.interceptor [])
           (Sample.post_voterContext (Sample.a_user "user")
              (VObject {[ "allowAccess" := VBool true ]}))
           (method_metadata Sample.TestVoter "vote")
           Sample.TestVoter Sample.TestVoter_instance
           (Sample.on_context (λ c,
              VBool (Sample.strict_equal (Sample.get (vc_data c) "allowAccess")
                       (VBool true)))))
    as [H1 H2].
  - reflexivity.
  - reflexivity.
  - reflexivity.
  - right. vm_compute. reflexivity.
  - vm_compute. reflexivity.
  - split; [exact H1|]. rewrite H2. vm_compute. reflexivity.
Defined.

(** X10.  A voter class that is not in the module registry is
    default-constructed, and when its constructor throws the rule throws
    that exception, in either phase, right after the attempt to resolve the
    voter: no [supports], no decision method is called and no denial is
    made of it. *)
Theorem constructor_failure_propagates key this context meta c e :
  staticMethod meta = None →
  voterClass meta = Some c →
  moduleRef this c = None →
  construct c = Throw e →
  executeVoter key this meta context = ([EvGetVoterInstance c], Throw e).
Proof.
  intros Hs Hc Hm He.
  destruct key; cbn [executeVoter];
    unfold executePreAuthVoter, executePostAuthVoter, getVoterInstance;
    rewrite Hs, Hc, Hm, He; reflexivity.
Qed.

Lemma constructor_failure_propagates_witness :
  executePostAuthVoter (Sample.interceptor [])
    (method_metadata
       {| name := "NeedsArgs"; construct := Throw (TypeError "repo is undefined") |}
       "vote")
    (Sample.post_voterContext (Sample.a_user "user") VNull)
  = ([EvGetVoterInstance
        {| name := "NeedsArgs"; construct := Throw (TypeError "repo is undefined") |}],
     Throw (TypeError "repo is undefined")).
Proof.
  apply (constructor_failure_propagates POST_AUTH_VOTER_METADATA); reflexivity.
Defined.

(** X11.  A registered shared instance is preferred to construction: when
    the module registry has an instance of the class, the rule is decided
    by that instance and the constructor plays no part, in either phase:
    the evaluation is the same for a class that differs in its constructor
    only (as far as the registry returns the same instance for it). *)
Theorem shared_instance_preferred key this context c c' m voter :
  name c' = name c →
  moduleRef this c = Some voter →
  moduleRef this c' = Some voter →
  result (executeVoter key this
            {| voterClass := Some c; methodName := m; staticMethod := None |} context) =
  result (executeVoter key this
            {| voterClass := Some c'; methodName := m; staticMethod := None |} context).
Proof.
  intros Hn Hc Hc'.
  destruct key; cbn [executeVoter];
    unfold executePreAuthVoter, executePostAuthVoter, getVoterInstance,
      supports_rejects; cbn [staticMethod voterClass];
    rewrite Hc, Hc', Hn; unfold methodName_or_vote; cbn [methodName];
    unfold_M; cbn.
  - destruct (voter !! _) as [[f|w]|]; [|done..].
    destruct (f (ArgContext context)) as [v|e]; [|done]. cbn.
    by destruct (truthy v).
  - destruct (voter !! "supports") as [[s|w]|]; cbn.
    + destruct (s (ArgData (vc_data context))) as [r|e]; [|done]. cbn.
      destruct (truthy r); cbn; [|done].
      destruct (voter !! _) as [[f|w]|]; [|done..].
      destruct (f (ArgContext context)) as [v|e]; [|done]. cbn.
      by destruct (truthy v).
    + destruct (truthy w); [done|]. cbn.
      destruct (voter !! _) as [[f|w']|]; [|done..].
      destruct (f (ArgContext context)) as [v|e]; [|done]. cbn.
      by destruct (truthy v).
    + destruct (voter !! _) as [[f|w]|]; [|done..].
      destruct (f (ArgContext context)) as [v|e]; [|done]. cbn.
      by destruct (truthy v).
Qed.

Lemma shared_instance_preferred_witness :
  let this := {| reflector := empty_store;
                 moduleRef := λ _, Some Sample.TestVoter_instance |} in
  result (executePreAuthVoter this
            {| voterClass := Some Sample.TestVoter; methodName := Some "canCreate";
               staticMethod := None |}
            (Sample.http_voterContext (Sample.a_user "admin")))
  = result (executePreAuthVoter this
              {| voterClass :=
                   Some {| name := "TestVoter";
                           construct := Throw (Error "cannot be constructed") |};
                 methodName := Some "canCreate"; staticMethod := None |}
              (Sample.http_voterContext (Sample.a_user "admin"))).
Proof.
  cbv zeta.
  apply (shared_instance_preferred PRE_AUTH_VOTER_METADATA
           {| reflector := empty_store;
              moduleRef := λ _, Some Sample.TestVoter_instance |}
           (Sample.http_voterContext (Sample.a_user "admin"))
           Sample.TestVoter
           {| name := "TestVoter"; construct := Throw (Error "cannot be constructed") |}
           (Some "canCreate") Sample.TestVoter_instance); reflexivity.
Defined.

(** ** The decorators and the registry *)

(** X12.  The decorators only append.  Applied in sequence to any store,
    they leave every list as it was and put, after it, the descriptors
    registered for that handler and phase, in the order of registration:
    nothing is removed, reordered or changed, and registrations for another
    handler or the other phase do not show. *)
Theorem decorators_only_append key target s rs :
  rules_of key target (foldl register s rs) =
  rules_of key target s ++ registered_on key target rs.
Proof.
  induction rs as [|r rs IH] using rev_ind.
  - by rewrite app_nil_r.
  - rewrite foldl_app. cbn [foldl]. unfold rules_of at 1.
    rewrite getMetadata_register, registered_on_app. unfold registered_on at 2.
    cbn [List.filter].
    destruct (concerns key target r); cbn [fmap list_fmap default].
    + by rewrite IH, app_assoc.
    + fold (rules_of key target (foldl register s rs)). by rewrite IH, app_nil_r.
Qed.

(** X13.  The interceptor steps in for exactly the handlers a decorator
    was applied to: a handler carries metadata in some phase if and only if
    one of the registrations targets it.  No decorator ever attaches an
    empty list. *)
Theorem decorated_iff_registered rs mref context :
  let this := {| reflector := register_all rs; moduleRef := mref |} in
  (decorated this context ↔
   ∃ r, r ∈ rs ∧ reg_target r = handler_ref (getHandler context)) ∧
  ∀ key, reflector_get this key (getHandler context) ≠ Some [].
Proof.
  cbv zeta.
  assert (Hnone : ∀ key target,
            Reflect_getMetadata key target (register_all rs) = None ↔
            Forall (λ r, concerns key target r = false) rs).
  { intros key target. rewrite getMetadata_register_all. unfold registered_on.
    induction rs as [|r rs IH]; [by split; [constructor|]|].
    cbn [List.filter]. destruct (concerns key target r) eqn:E.
    - split; [done|]. intros H. apply Forall_cons in H as [H _]. congruence.
    - rewrite IH. split; [intros; by constructor|].
      intros H. by apply Forall_cons in H as [_ H]. }
  split.
  - unfold decorated, reflector_get. cbn [reflector]. rewrite !Hnone. split.
    + intros [H|H]; apply not_Forall_Exists in H; try (intros ?; apply _);
        apply Exists_exists in H as (r & Hin & Hr);
        exists r; (split; [done|]);
        apply not_false_is_true, concerns_spec in Hr; tauto.
    + intros (r & Hin & Ht).
      destruct (reg_key r) eqn:Hk; [left|right]; intros H;
        (eapply Forall_forall in H; [|exact Hin]);
        (assert (concerns (reg_key r) (handler_ref (getHandler context)) r = true)
           as Hc by (by apply concerns_spec));
        rewrite Hk in Hc; congruence.
  - intros key. unfold reflector_get. cbn [reflector].
    rewrite getMetadata_register_all.
    by destruct (registered_on key (handler_ref (getHandler context)) rs).
Qed.

Ltac trace_forall :=
  repeat match goal with
  | |- Forall _ (trace (_ ≫= _)) => apply bind_trace_Forall; [|intros ?]
  | |- Forall _ (trace (match ?x with _ => _ end)) => destruct x
  | |- Forall _ (trace (if ?x then _ else _)) => destruct x
  | |- Forall _ (trace (tell _)) => by repeat constructor
  | |- Forall _ (trace _) => by constructor
  end.

(** A rule without static method never calls one. *)
Lemma voter_rule_calls_no_static_method key this meta context :
  staticMethod meta = None →
  Forall (λ e, is_static_call e = false) (trace (executeVoter key this meta context)).
Proof.
  intros Hs.
  destruct key; cbn [executeVoter];
    unfold executePreAuthVoter, executePostAuthVoter, getVoterInstance,
      supports_rejects; rewrite Hs; trace_forall.
Qed.

(** X14.  What [PreAuthVoter] and [PostAuthVoter] attach to the handler
    depends on the [prototype] of their argument alone.  For a function
    that has one (a class, but also a plain [function]) the descriptor
    appended to the handler's list names it as voter class with method
    [vote], and evaluating that rule never calls a static method: the
    argument is not called as a predicate.  For a function without one (an
    arrow function) the descriptor appended holds it as static method and
    nothing else, and evaluating that rule is one call of it, with no voter
    resolved. *)
Theorem prototype_decides_registration this context x target s :
  (∃ meta,
     Reflect_getMetadata PRE_AUTH_VOTER_METADATA target (PreAuthVoter x target s) =
       Some (rules_of PRE_AUTH_VOTER_METADATA target s ++ [meta]) ∧
     if has_prototype x
     then meta = {| voterClass := Some (as_class x); methodName := Some "vote";
                    staticMethod := None |} ∧
          count is_static_call (trace (executePreAuthVoter this meta context)) = 0
     else meta = {| voterClass := None; methodName := None;
                    staticMethod := Some (as_function x) |} ∧
          trace (executePreAuthVoter this meta context) =
            [EvStaticMethod (as_function x) context]) ∧
  (∃ meta,
     Reflect_getMetadata POST_AUTH_VOTER_METADATA target (PostAuthVoter x target s) =
       Some (rules_of POST_AUTH_VOTER_METADATA target s ++ [meta]) ∧
     if has_prototype x
     then meta = {| voterClass := Some (as_class x); methodName := Some "vote";
                    staticMethod := None |} ∧
          count is_static_call (trace (executePostAuthVoter this meta context)) = 0
     else meta = {| voterClass := None; methodName := None;
                    staticMethod := Some (as_function x) |} ∧
          trace (executePostAuthVoter this meta context) =
            [EvStaticMethod (as_function x) context]).
Proof.
  split.
  - eexists. split.
    + unfold PreAuthVoter. rewrite getMetadata_defineMetadata.
      cbn [key_eqb andb]. by rewrite Nat.eqb_refl.
    + destruct (has_prototype x); (split; [reflexivity|]).
      * apply count_none.
        by apply (voter_rule_calls_no_static_method PRE_AUTH_VOTER_METADATA).
      * unfold executePreAuthVoter. cbn [staticMethod]. unfold_M.
        destruct (as_function x (ArgContext context)) as [v|e]; [|done].
        cbn. by destruct (truthy v).
  - eexists. split.
    + unfold PostAuthVoter. rewrite getMetadata_defineMetadata.
      cbn [key_eqb andb]. by rewrite Nat.eqb_refl.
    + destruct (has_prototype x); (split; [reflexivity|]).
      * apply count_none.
        by apply (voter_rule_calls_no_static_method POST_AUTH_VOTER_METADATA).
      * unfold executePostAuthVoter. cbn [staticMethod]. unfold_M.
        destruct (as_function x (ArgContext context)) as [v|e]; [|done].
        cbn. by destruct (truthy v).
Qed.

(** ** The voter context *)

(** X15.  For an HTTP request, building the voter context never fails.  The
    context has no data yet ([null]), the merged arguments, the request's
    [user] as it is for principal, the execution context itself, the name
    of the handler function for method name, and the operation type
    ['http']. *)
Theorem http_voter_context context :
  getType context = "http" →
  createVoterContext context =
  ([EvGetRequest; EvGetMethodArguments; EvGetMethodContext],
   Return {| vc_data := VNull;
             vc_args := default ∅ (body (switchToHttp_getRequest context))
                        ∪ default ∅ (query (switchToHttp_getRequest context))
                        ∪ default ∅ (params (switchToHttp_getRequest context));
             vc_auth := user (switchToHttp_getRequest context);
             vc_context := context;
             vc_methodName := handler_name (getHandler context);
             vc_operationType := "http" |}).
Proof.
  intros Hhttp.
  unfold createVoterContext, getRequest, getMethodArguments, getMethodContext,
    OperationType.HTTP.
  rewrite Hhttp. cbn [String.eqb].
  rewrite !spread_default, (right_id_L ∅ (∪)), (assoc_L (∪)). reflexivity.
Qed.

Lemma http_voter_context_witness :
  createVoterContext (Sample.http_context (Sample.a_user "admin")
                        (Some {[ "name" := VString "n" ]}))
  = ([EvGetRequest; EvGetMethodArguments; EvGetMethodContext],
     Return {| vc_data := VNull;
               vc_args := {[ "name" := VString "n" ]} ∪ ∅ ∪ ∅;
               vc_auth := Sample.a_user "admin";
               vc_context := Sample.http_context (Sample.a_user "admin")
                               (Some {[ "name" := VString "n" ]});
               vc_methodName := "getUser";
               vc_operationType := "http" |}).
Proof.
  exact (http_voter_context
           (Sample.http_context (Sample.a_user "admin")
              (Some {[ "name" := VString "n" ]}))
           eq_refl).
Defined.

(** X16.  For a GraphQL call of kind query, mutation or subscription whose
    GraphQL context has a request, the voter context has no data yet, the
    call's arguments as they are (nothing of the HTTP request is merged
    in), [req.user] of the GraphQL context for principal, the field name
    for method name and the operation kind for operation type. *)
Theorem graphql_voter_context context gql req :
  getType context ≠ "http" →
  graphql context = Some gql →
  getContext_req gql = Some req →
  getInfo_operation gql = "query" ∨ getInfo_operation gql = "mutation" ∨
    getInfo_operation gql = "subscription" →
  createVoterContext context =
  ([EvGetRequest; EvGetMethodArguments; EvGetMethodContext],
   Return {| vc_data := VNull;
             vc_args := getArgs gql;
             vc_auth := user req;
             vc_context := context;
             vc_methodName := getInfo_fieldName gql;
             vc_operationType := getInfo_operation gql |}).
Proof.
  intros Hhttp Hgql Hreq Hop. apply String.eqb_neq in Hhttp.
  unfold createVoterContext, getRequest, getMethodArguments, getMethodContext,
    getGqlExecutionContext, OperationType.HTTP, OperationType.QUERY,
    OperationType.MUTATION, OperationType.SUBSCRIPTION.
  rewrite Hhttp, Hgql. unfold_M. cbn. rewrite Hreq.
  destruct Hop as [-> | [-> | ->]]; reflexivity.
Qed.

Lemma graphql_voter_context_witness :
  createVoterContext (Sample.gql_context "mutation")
  = ([EvGetRequest; EvGetMethodArguments; EvGetMethodContext],
     Return {| vc_data := VNull;
               vc_args := {[ "id" := VString "42" ]};
               vc_auth := Sample.a_user "user";
               vc_context := Sample.gql_context "mutation";
               vc_methodName := "post";
               vc_operationType := "mutation" |}).
Proof.
  exact (graphql_voter_context (Sample.gql_context "mutation")
           {| getContext_req := Some {| user := Sample.a_user "user"; params := None;
                                        query := None; body := None |};
              getArgs := {[ "id" := VString "42" ]};
              getInfo_fieldName := "post";
              getInfo_operation := "mutation" |}
           {| user := Sample.a_user "user"; params := None; query := None;
              body := None |}
           ltac:(discriminate) eq_refl eq_refl (or_intror (or_introl eq_refl))).
Defined.

(** X17.  Outside HTTP, when the GraphQL module cannot be loaded, building
    the voter context fails at the first read of the request with the
    error that asks to install [@nestjs/graphql]. *)
Theorem graphql_module_missing context :
  getType context ≠ "http" →
  graphql context = None →
  createVoterContext context =
  ([EvGetRequest],
   Throw (Error ("GraphQL context detected but @nestjs/graphql is not installed. "
                 +:+ "Please install it with: npm install @nestjs/graphql"))) ∧
  ∀ this next, decorated this context →
    invoke this context next =
    ([EvGetRequest],
     Throw (Error ("GraphQL context detected but @nestjs/graphql is not installed. "
                   +:+ "Please install it with: npm install @nestjs/graphql"))).
Proof.
  intros Hhttp Hgql. apply String.eqb_neq in Hhttp.
  assert (Hctx : createVoterContext context =
    ([EvGetRequest],
     Throw (Error ("GraphQL context detected but @nestjs/graphql is not installed. "
                   +:+ "Please install it with: npm install @nestjs/graphql")))).
  { unfold createVoterContext, getRequest, getGqlExecutionContext, OperationType.HTTP.
    by rewrite Hhttp, Hgql. }
  split; [exact Hctx|]. intros this next Hdec.
  by rewrite (invoke_decorated _ _ _ Hdec), Hctx.
Qed.

Lemma graphql_module_missing_witness :
  createVoterContext
    {| getType := "graphql"; getHandler := Sample.the_handler;
       switchToHttp_getRequest := Sample.no_request; graphql := None |}
  = ([EvGetRequest],
     Throw (Error ("GraphQL context detected but @nestjs/graphql is not installed. "
                   +:+ "Please install it with: npm install @nestjs/graphql"))).
Proof.
  destruct (graphql_module_missing
              {| getType := "graphql"; getHandler := Sample.the_handler;
                 switchToHttp_getRequest := Sample.no_request; graphql := None |})
    as [H _]; [discriminate | reflexivity | exact H].
Defined.

(** X18.  The arguments of an HTTP request have exactly the keys of the
    path parameters, the query and the body together: no key is lost and
    none is invented; when the request has none of the three, the
    arguments are the empty object. *)
Theorem http_arguments_keys context :
  getType context = "http" →
  let request := switchToHttp_getRequest context in
  ∃ args,
    getMethodArguments context = ([EvGetMethodArguments], Return args) ∧
    dom args = dom (default ∅ (body request)) ∪ dom (default ∅ (query request))
               ∪ dom (default ∅ (params request)) ∧
    (params request = None → query request = None → body request = None →
     args = ∅).
Proof.
  intros Hhttp. cbv zeta. eexists. split; [|split].
  - unfold getMethodArguments. rewrite Hhttp. cbn [String.eqb].
    rewrite !spread_default, (right_id_L ∅ (∪)), (assoc_L (∪)). reflexivity.
  - by rewrite !dom_union_L.
  - intros -> -> ->. cbn [default]. by rewrite !(left_id_L ∅ (∪)).
Qed.

Lemma http_arguments_keys_witness :
  ∃ args,
    getMethodArguments
      {| getType := "http"; getHandler := Sample.the_handler;
         switchToHttp_getRequest := Sample.no_request; graphql := None |}
    = ([EvGetMethodArguments], Return args) ∧
    args = ∅.
Proof.
  destruct (http_arguments_keys
              {| getType := "http"; getHandler := Sample.the_handler;
                 switchToHttp_getRequest := Sample.no_request; graphql := None |}
              eq_refl)
    as (args & Hrun & _ & Hempty).
  exists args. split; [exact Hrun|]. by apply Hempty.
Defined.

(** X19.  The post phase checks the named method like the pre phase does,
    but only for a voter that [supports] did not reject: then an absent
    method is the [Error] "Method <m> not found in <Class>" and a property
    that is not a function the [TypeError] "<m> is not a function in
    <Class>"; neither is a denial, and the decision is never called. *)
Theorem post_method_not_found this context meta c voter :
  staticMethod meta = None →
  voterClass meta = Some c →
  resolve this c = Return voter →
  supports_accepts voter (vc_data context) →
  (∀ f, voter !! methodName_or_vote meta ≠ Some (PFunction f)) →
  ∃ e,
    result (executePostAuthVoter this meta context) = Throw e ∧
    e = match voter !! methodName_or_vote meta with
        | None => Error ("Method " +:+ methodName_or_vote meta +:+ " not found in "
                         +:+ name c)
        | Some _ => TypeError (methodName_or_vote meta +:+ " is not a function in "
                               +:+ name c)
        end ∧
    is_denial e = false ∧
    decision_calls (trace (executePostAuthVoter this meta context)) = [].
Proof.
  intros Hs Hc Hres Hsup Hnf.
  unfold executePostAuthVoter, getVoterInstance, supports_rejects.
  rewrite Hs, Hc.
  assert (Hg : (tell (EvGetVoterInstance c) ;;
                match moduleRef this c with
                | Some voter => mret voter
                | None => lift (construct c)
                end) = ([EvGetVoterInstance c], Return voter)).
  { revert Hres. unfold resolve. unfold_M.
    destruct (moduleRef this c); [by intros [= ->]|by intros ->]. }
  rewrite Hg, bind_pair_return. clear Hg. revert Hsup. unfold supports_accepts.
  destruct (voter !! "supports") as [[s|w]|].
  - intros (r & Hr & Ht). unfold_M. rewrite Hr. cbn. rewrite Ht. cbn.
    destruct (voter !! methodName_or_vote meta) as [[f|w]|] eqn:E;
      [by destruct (Hnf f)|by eexists..].
  - intros Hw. unfold_M. rewrite Hw. cbn.
    destruct (voter !! methodName_or_vote meta) as [[f|w']|] eqn:E;
      [by destruct (Hnf f)|by eexists..].
  - intros _. unfold_M. cbn.
    destruct (voter !! methodName_or_vote meta) as [[f|w]|] eqn:E;
      [by destruct (Hnf f)|by eexists..].
Qed.

Lemma post_method_not_found_witness :
  ∃ e,
    result (executePostAuthVoter (Sample.interceptor [])
              (method_metadata Sample.TestVoter "canDelete")
              (Sample.post_voterContext (Sample.a_user "user") (VString "d")))
    = Throw e ∧
    e = Error "Method canDelete not found in TestVoter".
Proof.
  destruct (post_method_not_found (Sample.interceptor [])
              (Sample.post_voterContext (Sample.a_user "user") (VString "d"))
              (method_metadata Sample.TestVoter "canDelete")
              Sample.TestVoter Sample.TestVoter_instance)
    as (e & Hrun & He & _).
  - reflexivity.
  - reflexivity.
  - reflexivity.
  - exists (VBool true). split; reflexivity.
  - intros f Hf. vm_compute in Hf. discriminate Hf.
  - exists e. split; [exact Hrun|]. rewrite He. vm_compute. reflexivity.
Defined.

(** ** The example application *)

Lemma canDelete_admin_only context :
  UserVoter.canDelete (ArgContext context) =
  Return (VBool (Sample.is_string
                   (Sample.get (Sample.get (vc_auth context) "user") "role") "admin")).
Proof.
  unfold UserVoter.canDelete. cbn [UserVoter.destructure_auth].
  destruct (vc_auth context) as [| |[|]|n|s|props]; try done.
  - cbn. by destruct (negb (n =? 0)%Z).
  - cbn. by destruct (negb (String.eqb s "")).
  - cbn [truthy negb orb Sample.get].
    destruct (default VUndefined (props !! "user")) as [| |[|]|n|s|props']; try done.
    + cbn. by destruct (negb (n =? 0)%Z).
    + cbn. by destruct (negb (String.eqb s "")).
Qed.

(** X20.  [DELETE /users/:id] of the example controller, guarded by
    [@PreAuthVoterMethod(UserVoter, 'canDelete')]: the request reaches the
    handler and the caller gets [{ success: true }] exactly when
    [request.user.user.role] is the string ['admin']; otherwise the caller
    gets the denial "Pre-authorization denied by UserVoter.canDelete" and
    the handler is not called. *)
Theorem deleteUser_admin_only this UserVoter_class context voter :
  reflector this = register_all (UserController.decorators UserVoter_class) →
  name UserVoter_class = "UserVoter" →
  resolve this UserVoter_class = Return voter →
  voter !! "canDelete" = Some (PFunction UserVoter.canDelete) →
  getType context = "http" →
  handler_ref (getHandler context) = UserController.deleteUser →
  let role := Sample.get (Sample.get (user (switchToHttp_getRequest context)) "user")
                "role" in
  result (invoke this context UserController.deleteUser_handler) =
    (if Sample.is_string role "admin"
     then Return (VObject {[ "success" := VBool true ]})
     else Throw (VoterException "Pre-authorization denied by UserVoter.canDelete")) ∧
  handle_count (trace (invoke this context UserController.deleteUser_handler)) =
    (if Sample.is_string role "admin" then 1 else 0).
Proof.
  cbv zeta. intros Hrefl Hname Hres Hm Hhttp Href.
  assert (Hpre : reflector_get this PRE_AUTH_VOTER_METADATA (getHandler context) =
                 Some [method_metadata UserVoter_class "canDelete"]).
  { unfold reflector_get. by rewrite Href, Hrefl, getMetadata_register_all. }
  assert (Hpost : reflector_get this POST_AUTH_VOTER_METADATA (getHandler context) =
                  None).
  { unfold reflector_get. by rewrite Href, Hrefl, getMetadata_register_all. }
  assert (Hdec : decorated this context) by (left; by rewrite Hpre).
  rewrite (invoke_decorated _ _ _ Hdec).
  unfold pre_rules, post_rules. rewrite Hpre, Hpost. cbn [default].
  assert (Hctx : ∃ vctx, createVoterContext context =
                   ([EvGetRequest; EvGetMethodArguments; EvGetMethodContext],
                    Return vctx) ∧
                 vc_auth vctx = user (switchToHttp_getRequest context)).
  { unfold createVoterContext, getRequest, getMethodArguments, getMethodContext,
      OperationType.HTTP. rewrite Hhttp. eexists. split; reflexivity. }
  destruct Hctx as (vctx & -> & Hauth). rewrite bind_pair_return. unfold id.
  assert (Hrule :
    executePreAuthVoters this [method_metadata UserVoter_class "canDelete"] vctx =
    ([EvGetVoterInstance UserVoter_class;
      EvVoterMethod UserVoter_class "canDelete" vctx],
     if Sample.is_string
          (Sample.get (Sample.get (user (switchToHttp_getRequest context)) "user")
             "role") "admin"
     then Return ()
     else Throw (VoterException "Pre-authorization denied by UserVoter.canDelete"))).
  { cbn [executePreAuthVoters]. unfold executePreAuthVoter, getVoterInstance.
    cbn [staticMethod voterClass method_metadata].
    assert (Hg : (tell (EvGetVoterInstance UserVoter_class) ;;
                  match moduleRef this UserVoter_class with
                  | Some voter => mret voter
                  | None => lift (construct UserVoter_class)
                  end) = ([EvGetVoterInstance UserVoter_class], Return voter)).
    { revert Hres. unfold resolve. unfold_M.
      destruct (moduleRef this UserVoter_class); [by intros [= ->]|by intros ->]. }
    rewrite Hg. clear Hg.
    replace (methodName_or_vote (method_metadata UserVoter_class "canDelete"))
      with "canDelete" by reflexivity.
    unfold_M. cbn. rewrite Hm, canDelete_admin_only, Hauth, Hname. cbn.
    by destruct (Sample.is_string _ "admin"). }
  rewrite Hrule.
  destruct (Sample.is_string _ "admin"); split; reflexivity.
Qed.

Lemma deleteUser_admin_only_witness :
  let UserVoter_class :=
    {| name := "UserVoter";
       construct := Return {[ "canDelete" := PFunction UserVoter.canDelete ]} |} in
  let this := {| reflector := register_all (UserController.decorators UserVoter_class);
                 moduleRef := λ _, None |} in
  let context :=
    {| getType := "http";
       getHandler := {| handler_ref := UserController.deleteUser;
                        handler_name := "deleteUser" |};
       switchToHttp_getRequest :=
         {| user := VObject {[ "user" := Sample.a_user "admin" ]};
            params := Some {[ "id" := VString "7" ]}; query := None; body := None |};
       graphql := None |} in
  result (invoke this context UserController.deleteUser_handler)
    = Return (VObject {[ "success" := VBool true ]}) ∧
  handle_count (trace (invoke this context UserController.deleteUser_handler)) = 1.
Proof.
  cbv zeta.
  exact (deleteUser_admin_only
           {| reflector :=
                register_all
                  (UserController.decorators
                     {| name := "UserVoter";
                        construct :=
                          Return {[ "canDelete" := PFunction UserVoter.canDelete ]} |});
              moduleRef := λ _, None |}
           {| name := "UserVoter";
              construct := Return {[ "canDelete" := PFunction UserVoter.canDelete ]} |}
           {| getType := "http";
              getHandler := {| handler_ref := UserController.deleteUser;
                               handler_name := "deleteUser" |};
              switchToHttp_getRequest :=
                {| user := VObject {[ "user" := Sample.a_user "admin" ]};
                   params := Some {[ "id" := VString "7" ]}; query := None;
                   body := None |};
              graphql := None |}
           {[ "canDelete" := PFunction UserVoter.canDelete ]}
           eq_refl eq_refl eq_refl eq_refl eq_refl eq_refl).
Defined.
